(** * Principia: the Prince-of-Persia reinforcement-learning environment

    A shallow embedding of [POPEnv] (file POP_env.py): the adapter that
    drives the SDLPoP engine through ctypes, with its frame-skip loop, its
    reward shaping and its episode bookkeeping.

    - Python floats are IEEE binary64 numbers: they are Rocq's primitive
      floats, so every reward below is the very double the interpreter
      computes.
    - Python integers are [Z]; a store into a C [int] wraps around.
    - The adapter object is a record; attributes that only [reset] creates
      are optional, and reading a missing one raises [AttributeError].
    - Methods live in a state-and-exception monad over the adapter object:
      an exception leaves the mutations made so far in place.
    - The native engine, PIL and numpy's image pipeline are outside the
      repository's Python sources: they are the fields of two classes. *)

From Stdlib Require Import ZArith Lia List String.
From Stdlib Require Import Floats.PrimFloat Floats.SpecFloat Floats.FloatOps.
From Stdlib Require Import Uint63.
From stdpp Require Import base decidable option gmap.
Import ListNotations.

Set Warnings "-inexact-float".
Local Open Scope Z_scope.

(** ** Numbers *)

(** A store [x.value = n] into a ctypes [c_int] keeps the low 32 bits,
    read back as a signed number. *)
Definition c_int (n : Z) : Z := (n + 2 ^ 31) mod 2 ^ 32 - 2 ^ 31.

(** [float(n)] for an integer held in a C [short] or [int] cell (exact below
    2^53 in magnitude). *)
Definition float_of_Z (n : Z) : float :=
  if n <? 0 then PrimFloat.opp (PrimFloat.of_uint63 (Uint63.of_Z (- n)))
  else PrimFloat.of_uint63 (Uint63.of_Z n).

(** The cast done by [np.array(..., dtype=np.float32)]: round to the nearest
    binary32 number (ties to even, overflow to infinity); the result is kept
    in a double, which holds every binary32 number exactly. *)
Definition np_float32 (x : float) : float :=
  match Prim2SF x with
  | S754_finite s m e => SF2Prim (binary_round 24 128 s m e)
  | _ => x
  end.

(** ** The engine's memory *)

(** The global variables of libSDLPoP.so that [POPEnv.__init__] binds with
    [in_dll], each holding the value [.value] reads, and the rest of the
    engine's memory, which the adapter never looks at. *)
Record Sim := mkSim {
  rl_step_mode : Z;
  rl_action : Z;
  start_level : Z;
  rl_kid_dead : Z;
  current_level : Z;
  hitp_curr : Z;
  hitp_max : Z;
  have_sword : Z;
  curr_room : Z;
  guardhp_curr : Z;
  hidden : list Z
}.

Definition set_rl_step_mode (v : Z) (e : Sim) : Sim :=
  mkSim v (rl_action e) (start_level e) (rl_kid_dead e) (current_level e)
        (hitp_curr e) (hitp_max e) (have_sword e) (curr_room e)
        (guardhp_curr e) (hidden e).

Definition set_rl_action (v : Z) (e : Sim) : Sim :=
  mkSim (rl_step_mode e) v (start_level e) (rl_kid_dead e) (current_level e)
        (hitp_curr e) (hitp_max e) (have_sword e) (curr_room e)
        (guardhp_curr e) (hidden e).

Definition set_start_level (v : Z) (e : Sim) : Sim :=
  mkSim (rl_step_mode e) (rl_action e) v (rl_kid_dead e) (current_level e)
        (hitp_curr e) (hitp_max e) (have_sword e) (curr_room e)
        (guardhp_curr e) (hidden e).

Definition set_rl_kid_dead (v : Z) (e : Sim) : Sim :=
  mkSim (rl_step_mode e) (rl_action e) (start_level e) v (current_level e)
        (hitp_curr e) (hitp_max e) (have_sword e) (curr_room e)
        (guardhp_curr e) (hidden e).

(** The entry points of the shared library the adapter calls. They are
    compiled C, not Python: [pop_main], [init_game] and [play_level_2] are
    arbitrary functions of the engine's memory. [rl_get_frame] is the
    design document's [read_frame()], which "copies the current rendered
    frame into a caller-owned buffer" of 320*200*3 bytes: it returns the
    bytes and leaves the engine's variables as they are. *)
Class SDLPoP := {
  pop_main : Sim -> Sim;
  init_game : Z -> Sim -> Sim;
  play_level_2 : Sim -> Sim;
  rl_get_frame : Sim -> list Z
}.

(** [Image.fromarray(..).convert('L').resize((84, 84), Image.BILINEAR)] and
    the numpy reshapes around it: from the RGB frame to the 84x84x1 image. *)
Class Imaging := {
  to_pixels : list Z -> list Z
}.

(** ** The adapter object *)

Record POPEnv := mkEnv {
  lib : Sim;
  guardhp_prev : Z;
  frame_buffer : list Z;
  total_reward : float;
  step_count : Z;
  max_steps : Z;
  prev_hp : option Z;
  episode_return : option float;
  got_sword : option Z;
  visited_rooms : option (gset Z);
  prev_room_id : option Z
}.

Definition set_lib (v : Sim) (w : POPEnv) : POPEnv :=
  mkEnv v (guardhp_prev w) (frame_buffer w) (total_reward w) (step_count w)
        (max_steps w) (prev_hp w) (episode_return w) (got_sword w)
        (visited_rooms w) (prev_room_id w).

Definition set_guardhp_prev (v : Z) (w : POPEnv) : POPEnv :=
  mkEnv (lib w) v (frame_buffer w) (total_reward w) (step_count w)
        (max_steps w) (prev_hp w) (episode_return w) (got_sword w)
        (visited_rooms w) (prev_room_id w).

Definition set_frame_buffer (v : list Z) (w : POPEnv) : POPEnv :=
  mkEnv (lib w) (guardhp_prev w) v (total_reward w) (step_count w)
        (max_steps w) (prev_hp w) (episode_return w) (got_sword w)
        (visited_rooms w) (prev_room_id w).

Definition set_total_reward (v : float) (w : POPEnv) : POPEnv :=
  mkEnv (lib w) (guardhp_prev w) (frame_buffer w) v (step_count w)
        (max_steps w) (prev_hp w) (episode_return w) (got_sword w)
        (visited_rooms w) (prev_room_id w).

Definition set_step_count (v : Z) (w : POPEnv) : POPEnv :=
  mkEnv (lib w) (guardhp_prev w) (frame_buffer w) (total_reward w) v
        (max_steps w) (prev_hp w) (episode_return w) (got_sword w)
        (visited_rooms w) (prev_room_id w).

Definition set_prev_hp (v : option Z) (w : POPEnv) : POPEnv :=
  mkEnv (lib w) (guardhp_prev w) (frame_buffer w) (total_reward w)
        (step_count w) (max_steps w) v (episode_return w) (got_sword w)
        (visited_rooms w) (prev_room_id w).

Definition set_episode_return (v : option float) (w : POPEnv) : POPEnv :=
  mkEnv (lib w) (guardhp_prev w) (frame_buffer w) (total_reward w)
        (step_count w) (max_steps w) (prev_hp w) v (got_sword w)
        (visited_rooms w) (prev_room_id w).

Definition set_got_sword (v : option Z) (w : POPEnv) : POPEnv :=
  mkEnv (lib w) (guardhp_prev w) (frame_buffer w) (total_reward w)
        (step_count w) (max_steps w) (prev_hp w) (episode_return w) v
        (visited_rooms w) (prev_room_id w).

Definition set_visited_rooms (v : option (gset Z)) (w : POPEnv) : POPEnv :=
  mkEnv (lib w) (guardhp_prev w) (frame_buffer w) (total_reward w)
        (step_count w) (max_steps w) (prev_hp w) (episode_return w)
        (got_sword w) v (prev_room_id w).

Definition set_prev_room_id (v : option Z) (w : POPEnv) : POPEnv :=
  mkEnv (lib w) (guardhp_prev w) (frame_buffer w) (total_reward w)
        (step_count w) (max_steps w) (prev_hp w) (episode_return w)
        (got_sword w) (visited_rooms w) v.

(** ** Exceptions, and the monad of method bodies *)

Inductive exn :=
| AttributeError (attr : string)
| ZeroDivisionError.

Inductive Res (A : Type) :=
| Ok (a : A) (w : POPEnv)
| Raise (e : exn) (w : POPEnv).
Arguments Ok {A} a w.
Arguments Raise {A} e w.

(** The adapter object as a call leaves it, returned or raised. *)
Definition world_of {A} (r : Res A) : POPEnv :=
  match r with Ok _ w => w | Raise _ w => w end.

(** What a call returned, if it returned. *)
Definition value_of {A} (r : Res A) : option A :=
  match r with Ok a _ => Some a | Raise _ _ => None end.

Definition Py (A : Type) : Type := POPEnv -> Res A.

Definition ret {A} (a : A) : Py A := fun w => Ok a w.

Definition bind {A B} (c : Py A) (k : A -> Py B) : Py B :=
  fun w => match c w with
           | Ok a w' => k a w'
           | Raise e w' => Raise e w'
           end.

Definition raise {A} (e : exn) : Py A := fun w => Raise e w.

Definition gets {A} (f : POPEnv -> A) : Py A := fun w => Ok (f w) w.

Definition modify (f : POPEnv -> POPEnv) : Py unit := fun w => Ok tt (f w).

(** Reading an attribute that [__init__] does not create. *)
Definition attr {A} (name : string) (f : POPEnv -> option A) : Py A :=
  fun w => match f w with
           | Some a => Ok a w
           | None => Raise (AttributeError name) w
           end.

(** A read of an engine variable through its ctypes view. *)
Definition peek (f : Sim -> Z) : Py Z := gets (fun w => f (lib w)).

(** A store into an engine variable, or a call of an engine function. *)
Definition poke (f : Sim -> Sim) : Py unit :=
  modify (fun w => set_lib (f (lib w)) w).

Declare Scope py_scope.
Delimit Scope py_scope with py.
Notation "'let*' x ':=' c 'in' k" := (bind c (fun x => k))
  (at level 10, x name, c at level 100, k at level 200) : py_scope.
Notation "'let*' ' p ':=' c 'in' k" := (bind c (fun p => k))
  (at level 10, p strict pattern, c at level 100, k at level 200) : py_scope.
Notation "'exec' c 'in' k" := (bind c (fun _ => k))
  (at level 10, c at level 100, k at level 200) : py_scope.
Local Open Scope py_scope.

(** ** What the methods return *)

(** The observation dict: the 84x84x1 image and the four float32 features. *)
Record Obs := mkObs {
  pixels : list Z;
  state : list float
}.

(** The info dict of [step]. *)
Record Info := mkInfo {
  info_hp : Z;
  info_step : Z;
  info_total_reward : float;
  info_has_sword : Z
}.

(** [(obs, step_reward, terminated, truncated, info)]. *)
Record StepResult := mkStep {
  obs : Obs;
  reward : float;
  terminated : bool;
  truncated : bool;
  info : Info
}.

(** ** The methods of POPEnv *)

(** [a / b] on two Python integers: the correctly rounded quotient, and
    [ZeroDivisionError] when [b] is zero. *)
Definition truediv (a b : Z) : Py float :=
  if b =? 0 then raise ZeroDivisionError
  else ret (float_of_Z a / float_of_Z b)%float.

Section Methods.
Context {engine : SDLPoP} {imaging : Imaging}.

(** [POPEnv.__init__], from the engine's memory as the loader leaves it.
    The attributes that no method reads again ([path], [action_space],
    [observation_space]) are left out. *)
Definition __init__ (loaded : Sim) : POPEnv :=
  let guardhp_prev := 0 in
  let frame_buffer := repeat 0 (Z.to_nat (320 * 200 * 3)) in
  let e := set_rl_step_mode 1 loaded in
  let e := set_start_level 1 e in
  let e := pop_main e in
  mkEnv e guardhp_prev frame_buffer 0%float 0 2000000
        None None None None None.

(** [POPEnv._get_obs]. *)
Definition _get_obs : Py Obs :=
  exec modify (fun w => set_frame_buffer (rl_get_frame (lib w)) w) in
  let* hp := peek hitp_curr in
  let* hp_max := peek hitp_max in
  let* norm_hitp_curr := truediv hp hp_max in
  let* hp_max := peek hitp_max in
  let norm_hitp_max := (float_of_Z hp_max / 10)%float in
  let* level := peek current_level in
  let norm_current_level := (float_of_Z level / 15)%float in
  let* dead := peek rl_kid_dead in
  let is_alive := if dead =? 0 then 1%float else 0%float in
  let state :=
    map np_float32
        [norm_hitp_curr; norm_hitp_max; norm_current_level; is_alive] in
  let* frame := gets frame_buffer in
  let pixels := to_pixels frame in
  ret (mkObs pixels state).

(** [POPEnv.reset]; it returns the observation and the [hp] entry of the
    info dict, its only one. [super().reset] only reseeds gymnasium's
    random generator, which this class never draws from. *)
Definition reset : Py (Obs * Z) :=
  exec poke (init_game 1) in
  exec poke (set_rl_kid_dead 0) in
  exec modify (set_episode_return (Some 0%float)) in
  exec modify (set_step_count 0) in
  exec modify (set_got_sword (Some 0)) in
  let* hp := peek hitp_curr in
  exec modify (set_prev_hp (Some hp)) in
  let* guardhp := peek guardhp_curr in
  exec modify (set_guardhp_prev guardhp) in
  exec modify (set_visited_rooms (Some ∅)) in
  let* start_room := peek curr_room in
  let* rooms := attr "visited_rooms" visited_rooms in
  exec modify (set_visited_rooms (Some ({[start_room]} ∪ rooms))) in
  exec modify (set_prev_room_id (Some start_room)) in
  let* obs := _get_obs in
  let* hp := peek hitp_curr in
  ret (obs, hp).

(** The body of the frame-skip loop of [POPEnv.step], up to the update of
    [prev_hp]: one engine tick and its reward. It is given the loop's
    [terminated] and returns [frame_reward] and the new [terminated]. *)
Definition tick (terminated : bool) : Py (float * bool) :=
  exec poke play_level_2 in                      (* self.lib.play_level_2() *)
  exec modify (fun w => set_step_count (step_count w + 1) w) in
  let* current_hp := peek hitp_curr in
  let frame_reward := (-0.01)%float in
  let* prev := gets prev_hp in
  let frame_reward :=
    match prev with
    | Some p => if current_hp <? p then (frame_reward - 1)%float
                else frame_reward
    | None => frame_reward
    end in
  let* prev := gets prev_hp in
  let frame_reward :=
    match prev with
    | Some p => if current_hp >? p then (frame_reward + 1)%float
                else frame_reward
    | None => frame_reward
    end in
  let* dead := peek rl_kid_dead in
  let '(frame_reward, terminated) :=
    if dead =? 1 then ((frame_reward - 10)%float, true)
    else (frame_reward, terminated) in
  let* level := peek current_level in
  let '(frame_reward, terminated) :=
    if level >? 1 then ((frame_reward + 10)%float, true)
    else (frame_reward, terminated) in
  let* sword := peek have_sword in
  let* got := attr "got_sword" got_sword in
  let* frame_reward :=
    if sword >? got then
      let frame_reward := (frame_reward + 7)%float in
      let* sword := peek have_sword in
      exec modify (set_got_sword (Some sword)) in
      let* rooms := attr "visited_rooms" visited_rooms in
      exec modify (set_visited_rooms (Some ∅)) in              (* clear() *)
      let* room := peek curr_room in
      let* rooms := attr "visited_rooms" visited_rooms in
      exec modify (set_visited_rooms (Some ({[room]} ∪ rooms))) in (* add *)
      ret frame_reward
    else ret frame_reward in
  let* room_id := peek curr_room in
  let* rooms := attr "visited_rooms" visited_rooms in
  let* frame_reward :=
    if decide (room_id ∈ rooms) then ret frame_reward
    else
      let frame_reward := (frame_reward + 4)%float in
      let* rooms := attr "visited_rooms" visited_rooms in
      exec modify (set_visited_rooms (Some ({[room_id]} ∪ rooms))) in
      ret frame_reward in
  let* guardhp := peek guardhp_curr in
  let* prev_room := attr "prev_room_id" prev_room_id in
  let* frame_reward :=
    if room_id =? prev_room then
      let* guard_prev := gets guardhp_prev in
      if guardhp <? guard_prev then
        if guardhp >? 0 then ret (frame_reward + 2)%float
        else
          let* guard_prev := gets guardhp_prev in
          if guard_prev >? 0 then ret (frame_reward + 3)%float
          else ret frame_reward
      else ret frame_reward
    else ret frame_reward in
  exec modify (set_prev_room_id (Some room_id)) in
  exec modify (set_guardhp_prev guardhp) in
  exec modify (set_prev_hp (Some current_hp)) in
  ret (frame_reward, terminated).

(** [for _ in range(num_skip)] with its [break]: [n] iterations are left,
    [step_reward] and [terminated] are the loop's variables. *)
Fixpoint frame_skip (n : nat) (step_reward : float) (terminated : bool)
  : Py (float * bool) :=
  match n with
  | O => ret (step_reward, terminated)
  | S n' =>
      let* '(frame_reward, terminated) := tick terminated in
      let step_reward := (step_reward + frame_reward)%float in
      if terminated then ret (step_reward, terminated)
      else frame_skip n' step_reward terminated
  end.

(** [POPEnv.step]. *)
Definition step (action : Z) : Py StepResult :=
  exec poke (set_rl_action (c_int action)) in
  let step_reward := 0%float in
  let num_skip := 4%nat in
  let terminated := false in
  let* '(step_reward, terminated) :=
    frame_skip num_skip step_reward terminated in
  exec modify (fun w =>
    set_total_reward (total_reward w + step_reward)%float w) in
  let* obs := _get_obs in
  let* count := gets step_count in
  let* limit := gets max_steps in
  let truncated := limit <=? count in
  let* hp := peek hitp_curr in
  let* total := gets total_reward in
  let* sword := attr "got_sword" got_sword in
  ret (mkStep obs step_reward terminated truncated
              (mkInfo hp count total sword)).

(** [POPEnv.close]. *)
Definition close : Py unit := poke (set_rl_step_mode 0).

End Methods.


(** ** The reward of one tick, as the design document composes it *)

Section Shaping.
Context {engine : SDLPoP} {imaging : Imaging}.

(** The attributes [reset] creates and [step] reads are all there. *)
Definition ready (w : POPEnv) : bool :=
  match got_sword w, visited_rooms w, prev_room_id w with
  | Some _, Some _, Some _ => true
  | _, _, _ => false
  end.

(** Death or level advance, read off the engine after a tick. *)
Definition ends_episode (e : Sim) : bool :=
  (rl_kid_dead e =? 1) || (current_level e >? 1).

(** The eight components, from the adapter [w] before the tick and the
    engine [e] after it; a component that does not apply is [0]. *)
Definition base_cost : float := (-0.01)%float.

Definition health_loss (w : POPEnv) (e : Sim) : float :=
  match prev_hp w with
  | Some p => if hitp_curr e <? p then (-1)%float else 0%float
  | None => 0%float
  end.

Definition health_gain (w : POPEnv) (e : Sim) : float :=
  match prev_hp w with
  | Some p => if hitp_curr e >? p then 1%float else 0%float
  | None => 0%float
  end.

Definition death (e : Sim) : float :=
  if rl_kid_dead e =? 1 then (-10)%float else 0%float.

Definition level_advance (e : Sim) : float :=
  if current_level e >? 1 then 10%float else 0%float.

Definition sword_edge (w : POPEnv) (e : Sim) : bool :=
  match got_sword w with
  | Some g => have_sword e >? g
  | None => false
  end.

Definition sword_bonus (w : POPEnv) (e : Sim) : float :=
  if sword_edge w e then 7%float else 0%float.

(** The rooms counted as visited when the exploration bonus is decided:
    after a sword pickup, the current room alone. *)
Definition rooms_seen (w : POPEnv) (e : Sim) : gset Z :=
  if sword_edge w e then {[curr_room e]}
  else default ∅ (visited_rooms w).

Definition new_room (w : POPEnv) (e : Sim) : float :=
  if decide (curr_room e ∈ rooms_seen w e) then 0%float else 4%float.

Definition boss_combat (w : POPEnv) (e : Sim) : float :=
  match prev_room_id w with
  | Some r =>
      if (curr_room e =? r) && (guardhp_curr e <? guardhp_prev w) then
        if guardhp_curr e >? 0 then 2%float
        else if guardhp_prev w >? 0 then 3%float
        else 0%float
      else 0%float
  | None => 0%float
  end.

Definition reward_terms (w : POPEnv) (e : Sim) : list float :=
  [health_loss w e; health_gain w e; death e; level_advance e;
   sword_bonus w e; new_room w e; boss_combat w e].

(** The components added up in the documented order. *)
Definition shaped_reward (w : POPEnv) (e : Sim) : float :=
  fold_left PrimFloat.add (reward_terms w e) base_cost.

(** The adapter after a tick that found every attribute in place. *)
Definition advance (w : POPEnv) : POPEnv :=
  let e := play_level_2 (lib w) in
  mkEnv e (guardhp_curr e) (frame_buffer w) (total_reward w)
        (step_count w + 1) (max_steps w) (Some (hitp_curr e))
        (episode_return w)
        (Some (if sword_edge w e then have_sword e
               else default 0 (got_sword w)))
        (Some ({[curr_room e]} ∪ rooms_seen w e))
        (Some (curr_room e)).

(** How many engine ticks a loop with [n] iterations left simulates from
    the engine state [e]: it stops after the first tick that ends the
    episode. *)
Fixpoint ticks_run (n : nat) (e : Sim) : nat :=
  match n with
  | O => O
  | S n' =>
      let e' := play_level_2 e in
      if ends_episode e' then 1%nat else S (ticks_run n' e')
  end.

(** The rewards of the first [k] ticks from [w], in order. *)
Fixpoint rewards_of (k : nat) (w : POPEnv) : list float :=
  match k with
  | O => []
  | S k' =>
      shaped_reward w (play_level_2 (lib w)) :: rewards_of k' (advance w)
  end.

(** The adapter during a [step(action)] call: after the action is
    written, after the frame-skip loop, and after [total_reward] is
    updated. *)
Definition armed (action : Z) (w : POPEnv) : POPEnv :=
  set_lib (set_rl_action (c_int action) (lib w)) w.

Definition ticks_of (action : Z) (w : POPEnv) : nat :=
  ticks_run 4 (lib (armed action w)).

Definition skipped (action : Z) (w : POPEnv) : POPEnv :=
  Nat.iter (ticks_of action w) advance (armed action w).

Definition step_reward_of (action : Z) (w : POPEnv) : float :=
  fold_left PrimFloat.add
            (rewards_of (ticks_of action w) (armed action w)) 0%float.

Definition banked (action : Z) (w : POPEnv) : POPEnv :=
  set_total_reward
    (total_reward (skipped action w) + step_reward_of action w)%float
    (skipped action w).

(** The adapter as [reset] has it when it asks for the observation. *)
Definition fresh (w : POPEnv) : POPEnv :=
  let e := set_rl_kid_dead 0 (init_game 1 (lib w)) in
  mkEnv e (guardhp_curr e) (frame_buffer w) (total_reward w) 0
        (max_steps w) (Some (hitp_curr e)) (Some 0%float) (Some 0)
        (Some ({[curr_room e]} ∪ ∅)) (Some (curr_room e)).

(** The four features of the observation. *)
Definition features (e : Sim) : list float :=
  map np_float32
      [(float_of_Z (hitp_curr e) / float_of_Z (hitp_max e))%float;
       (float_of_Z (hitp_max e) / 10)%float;
       (float_of_Z (current_level e) / 15)%float;
       if rl_kid_dead e =? 0 then 1%float else 0%float].

End Shaping.

(** ** Callers *)

(** The calls a training loop makes on one adapter. *)
Inductive call :=
| Reset
| Step (action : Z)
| Close.

Section Callers.
Context {engine : SDLPoP} {imaging : Imaging}.

(** A sequence of calls on one adapter, up to the first exception; it
    returns the rewards the [step] calls returned, in order. *)
Fixpoint session (cs : list call) : Py (list float) :=
  match cs with
  | [] => ret []
  | Reset :: cs' => exec reset in session cs'
  | Step a :: cs' =>
      let* r := step a in
      let* rs := session cs' in
      ret (reward r :: rs)
  | Close :: cs' => exec close in session cs'
  end.
End Callers.

(** ** A scripted engine, for running the adapter on concrete episodes *)

(** Each tick reads the next six numbers of the hidden memory into
    [rl_kid_dead], [current_level], [hitp_curr], [have_sword], [curr_room]
    and [guardhp_curr]; with fewer than six left the engine stands still.
    [init_game] puts the kid in room 1 of the level with 3 of 3 hit points
    and no sword, and does not touch [rl_kid_dead]. *)
Definition scripted : SDLPoP := {|
  pop_main e := e;
  init_game level e :=
    mkSim (rl_step_mode e) (rl_action e) (start_level e) (rl_kid_dead e)
          level 3 3 0 1 0 (hidden e);
  play_level_2 e :=
    match hidden e with
    | dead :: level :: hp :: sword :: room :: guardhp :: rest =>
        mkSim (rl_step_mode e) (rl_action e) (start_level e) dead level hp
              (hitp_max e) sword room guardhp rest
    | _ => e
    end;
  rl_get_frame e := repeat 0 (Z.to_nat (320 * 200 * 3))
|}.

Definition blank_image : Imaging := {|
  to_pixels frame := repeat 0 (Z.to_nat (84 * 84))
|}.

(** The engine's memory as loaded, with a script in its hidden part. *)
Definition loaded (script : list Z) : Sim :=
  mkSim 0 0 0 0 0 0 0 0 0 0 script.

(** The adapter right after construction and one [reset]. *)
Definition started (script : list Z) : POPEnv :=
  world_of (reset (engine := scripted) (imaging := blank_image)
                  (__init__ (engine := scripted) (loaded script))).

(** The engine stands still after the reset. *)
Definition quiet : POPEnv := started [].

(** The kid dies on the first tick after the reset. *)
Definition fatal : POPEnv := started [1; 1; 0; 0; 1; 0].

(** The adapter after the step in which the kid died. *)
Definition after_death : POPEnv :=
  world_of (step (engine := scripted) (imaging := blank_image) 1 fatal).

(** Four ticks short of the step limit. *)
Definition near_limit : POPEnv := set_step_count 1999996 quiet.

(** The sword is picked up in room 5; the kid then walks back to room 1,
    which was visited before the pickup. *)
Definition pickup : POPEnv := started [0; 1; 3; 1; 5; 0; 0; 1; 3; 1; 1; 0].

(** The guard of room 1 has 5 hit points after one tick, and will have
    none after the next. *)
Definition duel : POPEnv :=
  world_of (tick (engine := scripted) false
                 (started [0; 1; 3; 0; 1; 5; 0; 1; 3; 0; 1; 0])).

(** An episode that ends in death, then a second episode. *)
Definition two_episodes : list call := [Reset; Step 1; Reset; Step 2].

Definition after_two_episodes : POPEnv :=
  world_of (session (engine := scripted) (imaging := blank_image)
                    two_episodes
                    (__init__ (engine := scripted)
                              (loaded [1; 1; 0; 0; 1; 0]))).

(** ** The division of the observation, apart from the method around it *)

Section Division.
Context {engine : SDLPoP} {imaging : Imaging}.

(** [POPEnv._get_obs] with the [/] of [hitp_curr / hitp_max] taken as a
    parameter and every other statement as it is: what the method does of
    its own, whatever the division does with a zero divisor. With
    [truediv] for [div] it is [_get_obs]. *)
Definition get_obs_with (div : Z -> Z -> Py float) : Py Obs :=
  exec modify (fun w => set_frame_buffer (rl_get_frame (lib w)) w) in
  let* hp := peek hitp_curr in
  let* hp_max := peek hitp_max in
  let* norm_hitp_curr := div hp hp_max in
  let* hp_max := peek hitp_max in
  let norm_hitp_max := (float_of_Z hp_max / 10)%float in
  let* level := peek current_level in
  let norm_current_level := (float_of_Z level / 15)%float in
  let* dead := peek rl_kid_dead in
  let is_alive := if dead =? 0 then 1%float else 0%float in
  let state :=
    map np_float32
        [norm_hitp_curr; norm_hitp_max; norm_current_level; is_alive] in
  let* frame := gets frame_buffer in
  let pixels := to_pixels frame in
  ret (mkObs pixels state).

End Division.


(** ** Further vocabulary for the adapter's state *)

(** The call raised [AttributeError]. *)
Definition attribute_error {A} (r : Res A) : bool :=
  match r with
  | Raise (AttributeError _) _ => true
  | _ => false
  end.

(** The trackers hold what the engine shows now, and the current room
    counts as visited. *)
Definition synced (w : POPEnv) : Prop :=
  prev_hp w = Some (hitp_curr (lib w)) /\
  guardhp_prev w = guardhp_curr (lib w) /\
  prev_room_id w = Some (curr_room (lib w)) /\
  exists v, visited_rooms w = Some v /\ curr_room (lib w) ∈ v.

(** A float of the observation space's box, [0 <= x <= 1]. *)
Definition in_unit (x : float) : bool :=
  ((0 <=? x) && (x <=? 1))%float.

(** The integers [lo], [lo + 1], ..., [lo + n - 1]. *)
Definition zrange (lo : Z) (n : nat) : list Z :=
  map (fun i => lo + Z.of_nat i) (seq 0 n).

(** The first tick after the reset shows level 2. *)
Definition promoted : POPEnv := started [0; 2; 3; 0; 1; 0].

(** The first tick after the reset shows the kid in room 4. *)
Definition explorer : POPEnv := started [0; 1; 3; 0; 4; 0].

(** An adapter that went through [reset], on an engine that now shows 0
    of 0 hit points. *)
Definition maimed : POPEnv := set_lib (mkSim 1 0 1 0 1 0 0 0 1 0 []) quiet.

(** The adapter after the fatal step, with other counters and trackers. *)
Definition rewound : POPEnv :=
  set_step_count 7 (set_prev_hp None (set_visited_rooms (Some ∅) after_death)).

(** ** Attributes a computation leaves alone, or never looks at *)

Definition res_map {A} (f : POPEnv -> POPEnv) (r : Res A) : Res A :=
  match r with
  | Ok a w => Ok a (f w)
  | Raise e w => Raise e (f w)
  end.

(** [c] leaves the attribute [p] as it found it, returning or raising. *)
Definition keeps {A B} (p : POPEnv -> B) (c : Py A) : Prop :=
  forall w, p (world_of (c w)) = p w.

(** [c] never reads [episode_return]: with another value there, it does
    the same and leaves that value there. *)
Definition blind {A} (c : Py A) : Prop :=
  forall x w,
    c (set_episode_return x w) = res_map (set_episode_return x) (c w).

Section Frames.
Context {A B C : Type} (p : POPEnv -> C).

Lemma keeps_ret (a : A) : keeps p (ret a).
Proof. intros w. reflexivity. Qed.

Lemma keeps_raise (e : exn) : keeps p (raise (A := A) e).
Proof. intros w. reflexivity. Qed.

Lemma keeps_gets (f : POPEnv -> A) : keeps p (gets f).
Proof. intros w. reflexivity. Qed.

Lemma keeps_attr name (f : POPEnv -> option A) : keeps p (attr name f).
Proof. intros w. unfold attr. destruct (f w); reflexivity. Qed.

Lemma keeps_modify (f : POPEnv -> POPEnv) :
  (forall w, p (f w) = p w) -> keeps p (modify f).
Proof. intros Hf w. apply Hf. Qed.

Lemma keeps_bind (c : Py A) (k : A -> Py B) :
  keeps p c -> (forall a, keeps p (k a)) -> keeps p (bind c k).
Proof.
  intros Hc Hk w. unfold bind. specialize (Hc w).
  destruct (c w) as [a w1|e w1]; cbn [world_of] in Hc; [|exact Hc].
  now rewrite Hk.
Qed.

Lemma blind_ret (a : A) : blind (ret a).
Proof. intros x w. reflexivity. Qed.

Lemma blind_raise (e : exn) : blind (raise (A := A) e).
Proof. intros x w. reflexivity. Qed.

Lemma blind_gets (f : POPEnv -> A) :
  (forall x w, f (set_episode_return x w) = f w) -> blind (gets f).
Proof. intros Hf x w. unfold gets. now rewrite Hf. Qed.

Lemma blind_attr name (f : POPEnv -> option A) :
  (forall x w, f (set_episode_return x w) = f w) -> blind (attr name f).
Proof.
  intros Hf x w. unfold attr. rewrite Hf. destruct (f w); reflexivity.
Qed.

Lemma blind_modify (f : POPEnv -> POPEnv) :
  (forall x w, f (set_episode_return x w) = set_episode_return x (f w)) ->
  blind (modify f).
Proof. intros Hf x w. unfold modify. now rewrite Hf. Qed.

Lemma blind_bind (c : Py A) (k : A -> Py B) :
  blind c -> (forall a, blind (k a)) -> blind (bind c k).
Proof.
  intros Hc Hk x w. unfold bind. rewrite Hc.
  destruct (c w) as [a w1|e w1]; cbn [res_map]; [apply Hk|reflexivity].
Qed.
End Frames.

(** Walk through a method body, one statement at a time. *)
Ltac walk leaf :=
  repeat first
    [ leaf
    | apply keeps_ret | apply keeps_raise | apply keeps_gets
    | apply keeps_attr | apply blind_ret | apply blind_raise
    | apply keeps_bind; [|intros]
    | apply blind_bind; [|intros]
    | match goal with
      | |- keeps _ (if ?c then _ else _) => destruct c
      | |- blind (if ?c then _ else _) => destruct c
      | |- keeps _ (match ?q with (_, _) => _ end) => destruct q
      | |- blind (match ?q with (_, _) => _ end) => destruct q
      | |- keeps _ (match ?q with Some _ => _ | None => _ end) => destruct q
      | |- blind (match ?q with Some _ => _ | None => _ end) => destruct q
      end ].

Ltac leaf_keeps :=
  apply keeps_modify; intros []; reflexivity.

Ltac leaf_blind :=
  first [ apply blind_gets | apply blind_attr | apply blind_modify ];
  intros ? []; reflexivity.

(** ** Basic facts *)

(** A C int keeps small codes and wraps large ones. *)
Example c_int_small : c_int 7 = 7 /\ c_int (-1) = -1.
Proof. split; reflexivity. Qed.

Example c_int_wraps : c_int (2 ^ 31) = - 2 ^ 31 /\ c_int (2 ^ 32 + 5) = 5.
Proof. split; reflexivity. Qed.

(** float32 keeps 0.0 and 1.0 and rounds 3/10. *)
Example np_float32_values :
  np_float32 1%float = 1%float /\
  np_float32 0%float = 0%float /\
  np_float32 (float_of_Z 3 / 10)%float = 0.30000001192092896%float.
Proof. repeat split. Qed.

Lemma res_eq {A} (a a' : A) (w w' : POPEnv) :
  a = a' -> w = w' -> Ok a w = Ok a' w'.
Proof. intros -> ->. reflexivity. Qed.

Lemma env_eq l g f t c m p r s v i l' g' f' t' c' m' p' r' s' v' i' :
  l = l' -> g = g' -> f = f' -> t = t' -> c = c' -> m = m' -> p = p' ->
  r = r' -> s = s' -> v = v' -> i = i' ->
  mkEnv l g f t c m p r s v i = mkEnv l' g' f' t' c' m' p' r' s' v' i'.
Proof. intros; subst; reflexivity. Qed.

(** The room set right after [clear()] and [add(x)]. *)
Lemma in_reseeded (x : Z) : x ∈ ({[x]} ∪ ∅ : gset Z).
Proof. apply elem_of_union_l, elem_of_singleton_2. reflexivity. Qed.

Lemma reseeded_twice (x : Z) : ({[x]} ∪ ∅ : gset Z) = {[x]} ∪ {[x]}.
Proof. now rewrite union_empty_r_L, union_idemp_L. Qed.

(** [add(x)] on a set that has [x] changes nothing. *)
Lemma add_member (x : Z) (v : gset Z) : x ∈ v -> v = {[x]} ∪ v.
Proof.
  intros Hx. symmetry. apply subseteq_union_1_L.
  now apply singleton_subseteq_l.
Qed.

(** Run the monad's plumbing and the record projections. *)
Ltac crunch :=
  cbv beta iota zeta delta
    [tick bind ret gets modify peek poke attr raise fold_left default
     andb orb from_option id
     set_lib set_step_count set_got_sword set_visited_rooms
     set_prev_room_id set_guardhp_prev set_prev_hp set_total_reward
     set_frame_buffer set_episode_return
     lib guardhp_prev frame_buffer total_reward step_count max_steps
     prev_hp episode_return got_sword visited_rooms prev_room_id].

(** Case on the next test the goal branches on. *)
Ltac split_test :=
  match goal with
  | |- context [decide (?x ∈ {[?x]} ∪ ∅)] =>
      rewrite (decide_True (P := x ∈ ({[x]} ∪ ∅ : gset Z)))
        by apply in_reseeded
  | |- context [decide (?x ∈ {[?x]})] =>
      rewrite (decide_True (P := x ∈ ({[x]} : gset Z)))
        by apply elem_of_singleton_2, eq_refl
  | |- context [if ?c then _ else _] =>
      lazymatch c with
      | decide _ => destruct c
      | _ => destruct c eqn:?
      end
  end.

Section TickFacts.
Context {engine : SDLPoP} {imaging : Imaging}.

Lemma ready_inv w :
  ready w = true ->
  exists g v r,
    got_sword w = Some g /\ visited_rooms w = Some v /\
    prev_room_id w = Some r.
Proof.
  unfold ready.
  destruct (got_sword w) as [g|]; [|discriminate].
  destruct (visited_rooms w) as [v|]; [|discriminate].
  destruct (prev_room_id w) as [r|]; [|discriminate].
  intros _. exists g, v, r. repeat split.
Qed.

(** On an adapter that went through [reset], a tick cannot raise: it
    returns the documented reward and leaves the adapter advanced. *)
Lemma tick_ready t w :
  ready w = true ->
  tick t w =
  Ok (shaped_reward w (play_level_2 (lib w)),
      t || ends_episode (play_level_2 (lib w)))
     (advance w).
Proof.
  intros Hr. destruct (ready_inv w Hr) as (g & v & r & Hg & Hv & Hp).
  destruct w as [e gp fb tr sc ms ph er gs vr pr].
  cbn [got_sword visited_rooms prev_room_id] in Hg, Hv, Hp. subst gs vr pr.
  clear Hr.
  unfold advance.
  unfold shaped_reward, reward_terms, base_cost, health_loss, health_gain,
    death, level_advance, sword_bonus, new_room, boss_combat, rooms_seen,
    sword_edge, ends_episode.
  crunch. set (e' := play_level_2 e).
  destruct ph as [p|]; repeat (split_test; crunch);
    (apply res_eq;
     [f_equal; try reflexivity; destruct t; reflexivity
     | apply env_eq; try reflexivity; f_equal;
       first [apply reseeded_twice | now apply add_member]]).
Qed.

Lemma new_room_seen w e :
  curr_room e ∈ rooms_seen w e -> new_room w e = 0%float.
Proof. intros Hin. unfold new_room. now rewrite decide_True. Qed.

Lemma new_room_fresh w e :
  curr_room e ∉ rooms_seen w e -> new_room w e = 4%float.
Proof. intros Hin. unfold new_room. now rewrite decide_False. Qed.

Lemma advance_ready w : ready (advance w) = true.
Proof. reflexivity. Qed.

Lemma iter_advance_ready k w :
  ready w = true -> ready (Nat.iter k advance w) = true.
Proof.
  destruct k; [trivial|]. intros _. rewrite Nat.iter_succ.
  apply advance_ready.
Qed.

Lemma iter_advance_lib k w :
  lib (Nat.iter k advance w) = Nat.iter k play_level_2 (lib w).
Proof.
  induction k as [|k IH]; [reflexivity|].
  rewrite !Nat.iter_succ. unfold advance at 1. cbn [lib]. now rewrite IH.
Qed.

Lemma iter_advance_step_count k w :
  step_count (Nat.iter k advance w) = step_count w + Z.of_nat k.
Proof.
  induction k as [|k IH]; [cbn; lia|].
  rewrite Nat.iter_succ. unfold advance at 1. cbn [step_count]. lia.
Qed.

Lemma iter_advance_frame k w :
  max_steps (Nat.iter k advance w) = max_steps w /\
  total_reward (Nat.iter k advance w) = total_reward w /\
  episode_return (Nat.iter k advance w) = episode_return w /\
  frame_buffer (Nat.iter k advance w) = frame_buffer w.
Proof.
  induction k as [|k IH]; [repeat split|].
  rewrite Nat.iter_succ. unfold advance at 1 3 5 7.
  cbn [max_steps total_reward episode_return frame_buffer]. exact IH.
Qed.

(** The frame-skip loop on an adapter that went through [reset]: it
    simulates [ticks_run n] ticks, adds up their rewards, and reports
    whether the last of them ended the episode. *)
Lemma frame_skip_ready n sr w :
  ready w = true ->
  frame_skip n sr false w =
  Ok (fold_left PrimFloat.add (rewards_of (ticks_run n (lib w)) w) sr,
      match n with
      | O => false
      | S _ =>
          ends_episode (lib (Nat.iter (ticks_run n (lib w)) advance w))
      end)
     (Nat.iter (ticks_run n (lib w)) advance w).
Proof.
  revert sr w. induction n as [|n IH]; intros sr w Hr; [reflexivity|].
  cbn [frame_skip ticks_run]. unfold bind at 1.
  rewrite (tick_ready false w Hr). cbn [orb].
  destruct (ends_episode (play_level_2 (lib w))) eqn:He.
  - cbn [Nat.iter rewards_of fold_left]. unfold ret.
    apply res_eq; [|reflexivity].
    f_equal. rewrite iter_advance_lib. symmetry. exact He.
  - rewrite (IH _ (advance w) (advance_ready w)).
    replace (lib (advance w)) with (play_level_2 (lib w)) by reflexivity.
    rewrite !Nat.iter_succ_r. cbn [rewards_of fold_left].
    apply res_eq; [|reflexivity].
    f_equal. destruct n; [|reflexivity].
    cbn [ticks_run]. rewrite iter_advance_lib. symmetry. exact He.
Qed.

Lemma ticks_run_bounds n e :
  (ticks_run n e <= n)%nat /\ (n <> O -> ticks_run n e <> O).
Proof.
  revert e. induction n as [|n IH]; intros e;
    [split; [cbn; lia|congruence]|].
  cbn [ticks_run]. destruct (ends_episode (play_level_2 e)).
  - split; [lia|congruence].
  - destruct (IH (play_level_2 e)). split; [lia|congruence].
Qed.

(** Before the last tick the loop simulates, no tick ended the episode;
    a loop cut short stopped on a tick that did. *)
Lemma ticks_run_first n e :
  (forall i, (1 <= i < ticks_run n e)%nat ->
             ends_episode (Nat.iter i play_level_2 e) = false) /\
  ((ticks_run n e < n)%nat ->
   ends_episode (Nat.iter (ticks_run n e) play_level_2 e) = true).
Proof.
  revert e. induction n as [|n IH]; intros e;
    [split; cbn; intros; lia|].
  cbn [ticks_run]. destruct (ends_episode (play_level_2 e)) eqn:He.
  - split; [intros; lia|]. intros _. exact He.
  - destruct (IH (play_level_2 e)) as [IH1 IH2]. split.
    + intros i Hi. destruct i as [|[|i]]; [lia|exact He|].
      rewrite Nat.iter_succ_r. apply IH1. lia.
    + intros Hlt. rewrite Nat.iter_succ_r. apply IH2. lia.
Qed.

Lemma get_obs_world w :
  world_of (_get_obs w) = set_frame_buffer (rl_get_frame (lib w)) w.
Proof.
  destruct w as [e gp fb tr sc ms ph er gs vr pr].
  unfold _get_obs, truediv. crunch.
  destruct (hitp_max e =? 0); reflexivity.
Qed.

Lemma get_obs_zero w :
  hitp_max (lib w) = 0 ->
  _get_obs w =
  Raise ZeroDivisionError (set_frame_buffer (rl_get_frame (lib w)) w).
Proof.
  destruct w as [e gp fb tr sc ms ph er gs vr pr]. cbn [lib].
  intros Hz. unfold _get_obs, truediv. crunch. rewrite Hz. reflexivity.
Qed.

Lemma get_obs_ok w :
  hitp_max (lib w) <> 0 ->
  _get_obs w =
  Ok (mkObs (to_pixels (rl_get_frame (lib w))) (features (lib w)))
     (set_frame_buffer (rl_get_frame (lib w)) w).
Proof.
  destruct w as [e gp fb tr sc ms ph er gs vr pr]. cbn [lib].
  intros Hz. apply Z.eqb_neq in Hz.
  unfold _get_obs, truediv. crunch. rewrite Hz. reflexivity.
Qed.


Lemma armed_ready a w : ready w = true -> ready (armed a w) = true.
Proof. destruct w. trivial. Qed.

Lemma skipped_ready a w : ready w = true -> ready (skipped a w) = true.
Proof. intros Hr. apply iter_advance_ready, armed_ready, Hr. Qed.

Lemma skipped_step_count a w :
  step_count (skipped a w) = step_count w + Z.of_nat (ticks_of a w).
Proof. unfold skipped. now rewrite iter_advance_step_count. Qed.

Lemma skipped_frame a w :
  max_steps (skipped a w) = max_steps w /\
  total_reward (skipped a w) = total_reward w /\
  episode_return (skipped a w) = episode_return w.
Proof.
  unfold skipped.
  destruct (iter_advance_frame (ticks_of a w) (armed a w))
    as (-> & -> & -> & _).
  repeat split.
Qed.

Lemma skipped_lib a w :
  lib (skipped a w) =
  Nat.iter (ticks_of a w) play_level_2
           (set_rl_action (c_int a) (lib w)).
Proof. unfold skipped. now rewrite iter_advance_lib. Qed.

(** [step] on an adapter that went through [reset], up to the
    observation. *)
Lemma step_ready a w :
  ready w = true ->
  step a w =
  match _get_obs (banked a w) with
  | Ok o w' =>
      Ok (mkStep o (step_reward_of a w)
                 (ends_episode (lib (skipped a w)))
                 (max_steps w <=? step_count w + Z.of_nat (ticks_of a w))
                 (mkInfo (hitp_curr (lib (skipped a w)))
                         (step_count w + Z.of_nat (ticks_of a w))
                         (total_reward w + step_reward_of a w)
                         (default 0 (got_sword (skipped a w)))))
         w'
  | Raise e w' => Raise e w'
  end.
Proof.
  intros Hr.
  assert (Hs : ready (skipped a w) = true) by now apply skipped_ready.
  destruct (ready_inv _ Hs) as (g & v & r & Hg & _ & _).
  unfold step. cbv zeta. unfold bind at 1. unfold poke, modify.
  fold (armed a w). unfold bind at 1.
  rewrite (frame_skip_ready 4 0%float (armed a w) (armed_ready a w Hr)).
  fold (ticks_of a w). fold (skipped a w). fold (step_reward_of a w).
  cbv beta iota. unfold bind at 1.
  fold (banked a w). unfold bind at 1.
  destruct (_get_obs (banked a w)) as [o w'|x w'] eqn:Ho; [|reflexivity].
  assert (Hw : w' = set_frame_buffer (rl_get_frame (lib (banked a w)))
                                     (banked a w)).
  { rewrite <- get_obs_world, Ho. reflexivity. }
  subst w'. unfold peek. unfold bind, gets, attr, ret.
  cbn [got_sword set_frame_buffer banked set_total_reward step_count
       max_steps lib total_reward].
  rewrite Hg. cbn [default from_option id].
  rewrite skipped_step_count.
  destruct (skipped_frame a w) as (-> & -> & _). reflexivity.
Qed.

Lemma step_world a w :
  ready w = true ->
  world_of (step a w) =
  set_frame_buffer (rl_get_frame (lib (skipped a w))) (banked a w).
Proof.
  intros Hr. rewrite (step_ready a w Hr).
  pose proof (get_obs_world (banked a w)) as Hw.
  destruct (_get_obs (banked a w)); exact Hw.
Qed.


(** [reset], up to the observation. *)
Lemma reset_unfold w :
  reset w =
  match _get_obs (fresh w) with
  | Ok o w' => Ok (o, hitp_curr (lib (fresh w))) w'
  | Raise e w' => Raise e w'
  end.
Proof.
  destruct w as [e gp fb tr sc ms ph er gs vr pr].
  unfold reset, fresh. crunch.
  match goal with
  | |- context [_get_obs ?x] =>
      pose proof (get_obs_world x) as Hw;
      destruct (_get_obs x) as [o w'|x' w']; [|reflexivity]
  end.
  cbn [world_of] in Hw. subst w'. reflexivity.
Qed.

End TickFacts.

Section MethodFrames.
Context {engine : SDLPoP} {imaging : Imaging}.

Lemma tick_keeps_total t : keeps total_reward (tick t).
Proof. unfold tick, peek, poke. cbv zeta. walk leaf_keeps. Qed.

Lemma tick_keeps_return t : keeps episode_return (tick t).
Proof. unfold tick, peek, poke. cbv zeta. walk leaf_keeps. Qed.

Lemma tick_keeps_limit t : keeps max_steps (tick t).
Proof. unfold tick, peek, poke. cbv zeta. walk leaf_keeps. Qed.

Lemma tick_blind t : blind (tick t).
Proof. unfold tick, peek, poke. cbv zeta. walk leaf_blind. Qed.

Lemma frame_skip_keeps {C} (p : POPEnv -> C) n sr t :
  (forall t', keeps p (tick t')) -> keeps p (frame_skip n sr t).
Proof.
  intros Ht. revert sr t.
  induction n as [|n IH]; intros sr t; cbn [frame_skip].
  - apply keeps_ret.
  - apply keeps_bind; [apply Ht|]. intros [fr [|]].
    + apply keeps_ret.
    + apply IH.
Qed.

Lemma frame_skip_blind n sr t : blind (frame_skip n sr t).
Proof.
  revert sr t. induction n as [|n IH]; intros sr t; cbn [frame_skip].
  - apply blind_ret.
  - apply blind_bind; [apply tick_blind|]. intros [fr [|]].
    + apply blind_ret.
    + apply IH.
Qed.

Lemma get_obs_keeps_total : keeps total_reward _get_obs.
Proof. unfold _get_obs, truediv, peek. cbv zeta. walk leaf_keeps. Qed.

Lemma get_obs_keeps_return : keeps episode_return _get_obs.
Proof. unfold _get_obs, truediv, peek. cbv zeta. walk leaf_keeps. Qed.

Lemma get_obs_keeps_limit : keeps max_steps _get_obs.
Proof. unfold _get_obs, truediv, peek. cbv zeta. walk leaf_keeps. Qed.

Lemma get_obs_blind : blind _get_obs.
Proof. unfold _get_obs, truediv, peek. cbv zeta. walk leaf_blind. Qed.

Lemma reset_keeps_total : keeps total_reward reset.
Proof.
  unfold reset, peek, poke. cbv zeta.
  walk ltac:(first [apply get_obs_keeps_total | leaf_keeps]).
Qed.

Lemma reset_keeps_limit : keeps max_steps reset.
Proof.
  unfold reset, peek, poke. cbv zeta.
  walk ltac:(first [apply get_obs_keeps_limit | leaf_keeps]).
Qed.

Lemma step_keeps_return a : keeps episode_return (step a).
Proof.
  unfold step, peek, poke. cbv zeta.
  walk ltac:(first [ apply get_obs_keeps_return
                   | apply frame_skip_keeps, tick_keeps_return
                   | leaf_keeps ]).
Qed.

Lemma step_keeps_limit a : keeps max_steps (step a).
Proof.
  unfold step, peek, poke. cbv zeta.
  walk ltac:(first [ apply get_obs_keeps_limit
                   | apply frame_skip_keeps, tick_keeps_limit
                   | leaf_keeps ]).
Qed.

Lemma step_blind a : blind (step a).
Proof.
  unfold step, peek, poke. cbv zeta.
  walk ltac:(first [ apply get_obs_blind | apply frame_skip_blind
                   | leaf_blind ]).
Qed.

Lemma close_keeps_total : keeps total_reward close.
Proof. unfold close, poke. leaf_keeps. Qed.

Lemma close_keeps_return : keeps episode_return close.
Proof. unfold close, poke. leaf_keeps. Qed.

Lemma close_blind : blind close.
Proof. unfold close, poke. leaf_blind. Qed.

Lemma close_keeps_limit : keeps max_steps close.
Proof. unfold close, poke. leaf_keeps. Qed.

(** [max_steps] is the constructor's 2,000,000 for the adapter's whole
    life. *)
Lemma session_keeps_limit cs : keeps max_steps (session cs).
Proof.
  induction cs as [|[|a|] cs IH]; cbn [session].
  - apply keeps_ret.
  - apply keeps_bind; [apply reset_keeps_limit | intros; apply IH].
  - apply keeps_bind; [apply step_keeps_limit|]. intros r.
    apply keeps_bind; [apply IH | intros; apply keeps_ret].
  - apply keeps_bind; [apply close_keeps_limit | intros; apply IH].
Qed.

Lemma limit_after_session cs memory :
  max_steps (world_of (session cs (__init__ memory))) = 2000000.
Proof. now rewrite session_keeps_limit. Qed.

(** A [step] that returns has added its reward to [total_reward]. *)
Lemma step_banks a w r w' :
  step a w = Ok r w' ->
  total_reward w' = (total_reward w + reward r)%float.
Proof.
  unfold step. cbv zeta. unfold bind at 1. unfold poke, modify.
  unfold bind at 1.
  pose proof (frame_skip_keeps total_reward 4 0%float false
                tick_keeps_total (armed a w)) as Hk.
  fold (armed a w).
  destruct (frame_skip 4 0 false (armed a w)) as [[sr t] w1|x w1];
    [|discriminate].
  cbn [world_of] in Hk. cbv beta iota. unfold bind at 1.
  unfold bind at 1.
  match goal with
  | |- context [_get_obs ?y] =>
      pose proof (get_obs_keeps_total y) as Ho;
      destruct (_get_obs y) as [o w2|x w2]; [|discriminate]
  end.
  cbn [world_of] in Ho. unfold peek. unfold bind, gets, attr, ret.
  destruct (got_sword w2); [|discriminate].
  intros [= <- <-]. cbn [reward]. rewrite Ho.
  destruct w1. cbn [total_reward set_total_reward] in *.
  rewrite Hk. destruct w. reflexivity.
Qed.
End MethodFrames.

(** ** The claims *)

Section Claims.
Context {engine : SDLPoP} {imaging : Imaging}.

(** C1. A tick that finds [rl_kid_dead] at 1 subtracts 10 from its
    reward (the death component of the sum is -10), sets [terminated],
    and ends the frame-skip loop there: however many iterations were
    left, the loop returns what that one tick produced, the engine has
    been advanced once and [step_count] has grown by one. *)
Theorem death_tick_exits_loop (n : nat) (sr : float) (t : bool)
    (w : POPEnv) :
  ready w = true ->
  rl_kid_dead (play_level_2 (lib w)) = 1 ->
  exists fr w',
    tick t w = Ok (fr, true) w' /\
    fr = fold_left PrimFloat.add
           [health_loss w (play_level_2 (lib w));
            health_gain w (play_level_2 (lib w));
            (-10)%float;
            level_advance (play_level_2 (lib w));
            sword_bonus w (play_level_2 (lib w));
            new_room w (play_level_2 (lib w));
            boss_combat w (play_level_2 (lib w))]
           (-0.01)%float /\
    frame_skip (S n) sr t w = Ok ((sr + fr)%float, true) w' /\
    lib w' = play_level_2 (lib w) /\
    step_count w' = step_count w + 1.
Proof.
  intros Hr Hd.
  assert (He : ends_episode (play_level_2 (lib w)) = true).
  { unfold ends_episode. now rewrite Hd. }
  exists (shaped_reward w (play_level_2 (lib w))), (advance w).
  pose proof (tick_ready t w Hr) as Ht.
  rewrite He, orb_true_r in Ht.
  repeat split.
  - exact Ht.
  - unfold shaped_reward, reward_terms, base_cost, death. now rewrite Hd.
  - cbn [frame_skip]. unfold bind. rewrite Ht. reflexivity.
Qed.

(** [_get_obs] is [get_obs_with] at Python's own division. *)
Lemma get_obs_with_truediv : get_obs_with truediv = _get_obs.
Proof. reflexivity. Qed.


(** C3, as the code has it. [step] has no guard on the action code: for
    every integer, in 0..5 or not, on an adapter that went through
    [reset] the call stores the code in [rl_action] as a C int,
    simulates one to four ticks from there and returns their rewards;
    the one failure left is the division of the observation when
    [hitp_max] is 0. *)
Theorem step_takes_any_action (a : Z) (w : POPEnv) :
  ready w = true ->
  hitp_max (lib (world_of (step a w))) <> 0 ->
  exists r w' k,
    step a w = Ok r w' /\
    (1 <= k <= 4)%nat /\
    lib w' = Nat.iter k play_level_2 (set_rl_action (c_int a) (lib w)) /\
    reward r =
      fold_left PrimFloat.add
        (rewards_of k (set_lib (set_rl_action (c_int a) (lib w)) w))
        0%float.
Proof.
  intros Hr Hz. rewrite (step_world a w Hr) in Hz.
  pose proof (step_ready a w Hr) as Hs.
  rewrite (get_obs_ok (banked a w) Hz) in Hs.
  eexists _, _, (ticks_of a w). split; [exact Hs|].
  destruct (ticks_run_bounds 4 (lib (armed a w))) as [Hle Hpos].
  split; [unfold ticks_of; lia|]. split; [apply skipped_lib|reflexivity].
Qed.

(** C4. After a [step] that returns, on an adapter whose [max_steps] is
    the 2,000,000 of the constructor: [truncated] holds exactly when
    [step_count] has reached 2,000,000, whatever [terminated] is, and
    [terminated] holds exactly when the engine, as the last simulated
    tick left it, has [rl_kid_dead] at 1 or [current_level] above 1. *)
Theorem step_flags (a : Z) (w : POPEnv) :
  ready w = true ->
  max_steps w = 2000000 ->
  hitp_max (lib (world_of (step a w))) <> 0 ->
  exists r w' k,
    step a w = Ok r w' /\
    (truncated r = true <-> 2000000 <= step_count w') /\
    (terminated r = true <->
     rl_kid_dead (lib w') = 1 \/ 1 < current_level (lib w')) /\
    (1 <= k <= 4)%nat /\
    lib w' = Nat.iter k play_level_2 (set_rl_action (c_int a) (lib w)).
Proof.
  intros Hr Hm Hz. rewrite (step_world a w Hr) in Hz.
  pose proof (step_ready a w Hr) as Hs.
  rewrite (get_obs_ok (banked a w) Hz) in Hs.
  eexists _, _, (ticks_of a w). split; [exact Hs|].
  cbn [truncated terminated set_frame_buffer banked set_total_reward
       step_count lib].
  rewrite skipped_step_count, Hm.
  destruct (ticks_run_bounds 4 (lib (armed a w))) as [Hle Hpos].
  split; [apply Z.leb_le|].
  split; [|split; [unfold ticks_of; lia | apply skipped_lib]].
  unfold ends_episode. rewrite orb_true_iff, Z.eqb_eq, Z.gtb_ltb, Z.ltb_lt.
  reflexivity.
Qed.

(** C5. A tick that finds [have_sword] above [got_sword] adds 7 to its
    reward, records the new [have_sword], and leaves [visited_rooms] as
    the current room alone (so that tick has no exploration bonus). If
    the next tick finds the kid in another room and no further rise of
    [have_sword], it adds the exploration bonus of 4, whether or not
    that room had been visited before the pickup. *)
Theorem sword_pickup_reseeds_rooms (t t2 : bool) (w : POPEnv) (g : Z) :
  ready w = true ->
  got_sword w = Some g ->
  g < have_sword (play_level_2 (lib w)) ->
  exists fr t' w',
    tick t w = Ok (fr, t') w' /\
    fr = fold_left PrimFloat.add
           [health_loss w (play_level_2 (lib w));
            health_gain w (play_level_2 (lib w));
            death (play_level_2 (lib w));
            level_advance (play_level_2 (lib w));
            7%float;
            0%float;
            boss_combat w (play_level_2 (lib w))]
           (-0.01)%float /\
    got_sword w' = Some (have_sword (play_level_2 (lib w))) /\
    visited_rooms w' = Some {[curr_room (play_level_2 (lib w))]} /\
    (have_sword (play_level_2 (lib w')) <=
       have_sword (play_level_2 (lib w)) ->
     curr_room (play_level_2 (lib w')) <>
       curr_room (play_level_2 (lib w)) ->
     exists fr2 t2' w2,
       tick t2 w' = Ok (fr2, t2') w2 /\
       fr2 = fold_left PrimFloat.add
               [health_loss w' (play_level_2 (lib w'));
                health_gain w' (play_level_2 (lib w'));
                death (play_level_2 (lib w'));
                level_advance (play_level_2 (lib w'));
                0%float;
                4%float;
                boss_combat w' (play_level_2 (lib w'))]
               (-0.01)%float).
Proof.
  intros Hr Hg Hlt.
  assert (Hedge : sword_edge w (play_level_2 (lib w)) = true).
  { unfold sword_edge. rewrite Hg. apply Z.gtb_lt. exact Hlt. }
  eexists _, _, (advance w). split; [apply (tick_ready t w Hr)|].
  split.
  { unfold shaped_reward, reward_terms, base_cost, sword_bonus.
    rewrite Hedge, new_room_seen; [reflexivity|].
    unfold rooms_seen. rewrite Hedge. now apply elem_of_singleton_2. }
  split; [unfold advance; cbn [got_sword]; now rewrite Hedge|].
  split.
  { unfold advance, rooms_seen. cbn [visited_rooms]. rewrite Hedge.
    now rewrite union_idemp_L. }
  intros Hle Hne.
  assert (Hedge2 : sword_edge (advance w)
                     (play_level_2 (lib (advance w))) = false).
  { unfold sword_edge. unfold advance at 1. cbn [got_sword].
    rewrite Hedge, Z.gtb_ltb. apply Z.ltb_ge. exact Hle. }
  assert (Hseen : rooms_seen (advance w) (play_level_2 (lib (advance w)))
                  = {[curr_room (play_level_2 (lib w))]}).
  { unfold rooms_seen at 1. rewrite Hedge2. unfold advance at 1.
    cbn [visited_rooms default from_option id]. unfold rooms_seen.
    rewrite Hedge. apply union_idemp_L. }
  eexists _, _, (advance (advance w)).
  split; [apply (tick_ready t2 (advance w) (advance_ready w))|].
  unfold shaped_reward, reward_terms, base_cost, sword_bonus.
  rewrite Hedge2, new_room_fresh; [reflexivity|].
  rewrite Hseen, elem_of_singleton. exact Hne.
Qed.

(** C6. The boss-combat component of a tick's reward: when the room is
    the previous tick's room and the guard's hit points dropped, it is 2
    if the guard still has hit points, else 3 if the guard had hit
    points before (the killing blow), else nothing; in every other tick
    it is nothing. *)
Theorem boss_combat_bonus (t : bool) (w : POPEnv) :
  ready w = true ->
  exists b w',
    tick t w =
      Ok (fold_left PrimFloat.add
            [health_loss w (play_level_2 (lib w));
             health_gain w (play_level_2 (lib w));
             death (play_level_2 (lib w));
             level_advance (play_level_2 (lib w));
             sword_bonus w (play_level_2 (lib w));
             new_room w (play_level_2 (lib w));
             b]
            (-0.01)%float,
          t || ends_episode (play_level_2 (lib w)))
         w' /\
    (prev_room_id w = Some (curr_room (play_level_2 (lib w))) /\
     guardhp_curr (play_level_2 (lib w)) < guardhp_prev w ->
     (0 < guardhp_curr (play_level_2 (lib w)) -> b = 2%float) /\
     (guardhp_curr (play_level_2 (lib w)) <= 0 -> 0 < guardhp_prev w ->
      b = 3%float) /\
     (guardhp_curr (play_level_2 (lib w)) <= 0 -> guardhp_prev w <= 0 ->
      b = 0%float)) /\
    (~ (prev_room_id w = Some (curr_room (play_level_2 (lib w))) /\
        guardhp_curr (play_level_2 (lib w)) < guardhp_prev w) ->
     b = 0%float).
Proof.
  intros Hr. destruct (ready_inv w Hr) as (g & v & r & _ & _ & Hp).
  exists (boss_combat w (play_level_2 (lib w))), (advance w).
  split; [apply (tick_ready t w Hr)|].
  unfold boss_combat. rewrite Hp.
  set (e := play_level_2 (lib w)).
  destruct (Z.eqb_spec (curr_room e) r) as [Heq|Hneq];
    destruct (Z.ltb_spec (guardhp_curr e) (guardhp_prev w)) as [Hlt|Hge];
    cbn [andb].
  - destruct (Z.gtb_spec (guardhp_curr e) 0) as [Hpos|Hnpos];
      [|destruct (Z.gtb_spec (guardhp_prev w) 0) as [Hpp|Hnpp]];
      (split; [intros _; repeat split; intros; (reflexivity || lia)
              | intros Hn; exfalso; apply Hn; split; [congruence|lia]]).
  - split; [intros [_ Hlt]; lia | reflexivity].
  - split; [intros [Hs _]; congruence | reflexivity].
  - split; [intros [Hs _]; congruence | reflexivity].
Qed.

(** C7. A tick with health unchanged, the same room as before and
    already visited, no rise of [have_sword], the kid alive, level 1 and
    the guard's hit points not below the previous ones has the reward
    -0.01 and leaves [terminated] as it was. *)
Theorem quiet_tick_costs_base (t : bool) (w : POPEnv) (g : Z)
    (rooms : gset Z) :
  prev_hp w = Some (hitp_curr (play_level_2 (lib w))) ->
  prev_room_id w = Some (curr_room (play_level_2 (lib w))) ->
  visited_rooms w = Some rooms ->
  curr_room (play_level_2 (lib w)) ∈ rooms ->
  got_sword w = Some g ->
  have_sword (play_level_2 (lib w)) <= g ->
  rl_kid_dead (play_level_2 (lib w)) = 0 ->
  current_level (play_level_2 (lib w)) = 1 ->
  guardhp_prev w <= guardhp_curr (play_level_2 (lib w)) ->
  exists w', tick t w = Ok ((-0.01)%float, t) w'.
Proof.
  intros Hh Hp Hv Hin Hg Hs Hd Hl Hb.
  assert (Hr : ready w = true).
  { unfold ready. now rewrite Hg, Hv, Hp. }
  exists (advance w). rewrite (tick_ready t w Hr).
  apply res_eq; [|reflexivity]. f_equal.
  - unfold shaped_reward, reward_terms, base_cost, health_loss,
      health_gain, death, level_advance, sword_bonus,
      sword_edge, boss_combat.
    rewrite Hh, Hp, Hg, Hd, Hl.
    rewrite Z.ltb_irrefl, Z.gtb_ltb, Z.ltb_irrefl, Z.eqb_refl.
    replace (have_sword (play_level_2 (lib w)) >? g) with false
      by (symmetry; rewrite Z.gtb_ltb; apply Z.ltb_ge; exact Hs).
    replace (guardhp_curr (play_level_2 (lib w)) <? guardhp_prev w)
      with false by (symmetry; apply Z.ltb_ge; exact Hb).
    rewrite new_room_seen; [reflexivity|].
    unfold rooms_seen, sword_edge. rewrite Hg, Hv.
    replace (have_sword (play_level_2 (lib w)) >? g) with false
      by (symmetry; rewrite Z.gtb_ltb; apply Z.ltb_ge; exact Hs).
    exact Hin.
  - unfold ends_episode. rewrite Hd, Hl. destruct t; reflexivity.
Qed.

Lemma session_total cs : forall w0 rs w,
  session cs w0 = Ok rs w ->
  total_reward w = fold_left PrimFloat.add rs (total_reward w0).
Proof.
  induction cs as [|[|a|] cs IH]; intros w0 rs w; cbn [session].
  - intros [= <- <-]. reflexivity.
  - unfold bind at 1. pose proof (reset_keeps_total w0) as Hk.
    destruct (reset w0) as [o w1|x w1]; [|discriminate].
    cbn [world_of] in Hk. intros Hs. rewrite (IH _ _ _ Hs). now rewrite Hk.
  - unfold bind at 1.
    destruct (step a w0) as [r w1|x w1] eqn:Hst; [|discriminate].
    unfold bind at 1.
    destruct (session cs w1) as [rs' w2|x w2] eqn:Hs; [|discriminate].
    intros [= <- <-]. rewrite (IH _ _ _ Hs), (step_banks _ _ _ _ Hst).
    reflexivity.
  - unfold bind at 1. pose proof (close_keeps_total w0) as Hk.
    destruct (close w0) as [o w1|x w1]; [|discriminate].
    cbn [world_of] in Hk. intros Hs. rewrite (IH _ _ _ Hs). now rewrite Hk.
Qed.

(** C8. [total_reward] starts at 0.0 in the constructor and, after any
    sequence of [reset], [step] and [close] calls that returned, is the
    sum of all the rewards [step] returned, in order, over every episode;
    [reset] leaves it as it is. [reset] stores 0.0 in [episode_return];
    [step] and [close] leave [episode_return] as they found it, and do
    the same whatever it holds. *)
Theorem total_reward_spans_episodes (cs : list call) (memory : Sim)
    (rs : list float) :
  value_of (session cs (__init__ memory)) = Some rs ->
  total_reward (__init__ memory) = 0%float /\
  total_reward (world_of (session cs (__init__ memory))) =
    fold_left PrimFloat.add rs 0%float /\
  (forall v, total_reward (world_of (reset v)) = total_reward v) /\
  (forall v, episode_return (world_of (reset v)) = Some 0%float) /\
  (forall a v, episode_return (world_of (step a v)) = episode_return v) /\
  (forall v, episode_return (world_of (close v)) = episode_return v) /\
  (forall a x v,
      step a (set_episode_return x v) =
      res_map (set_episode_return x) (step a v)) /\
  (forall x v,
      close (set_episode_return x v) =
      res_map (set_episode_return x) (close v)).
Proof.
  intros Hs. split; [reflexivity|].
  split.
  { destruct (session cs (__init__ memory)) as [rs' w|x w] eqn:Hrun;
      [|discriminate].
    injection Hs as ->. exact (session_total cs _ _ _ Hrun). }
  split; [apply reset_keeps_total|].
  split.
  { intros v. rewrite reset_unfold.
    pose proof (get_obs_keeps_return (fresh v)) as Hk.
    destruct (_get_obs (fresh v)); exact Hk. }
  split; [intros a v; apply step_keeps_return|].
  split; [intros v; apply close_keeps_return|].
  split; [intros a x v; apply step_blind|].
  intros x v; apply close_blind.
Qed.

(** C9. A [step] on an adapter that went through [reset] simulates some
    number k of ticks, from 1 to 4, and adds exactly k to [step_count]:
    the engine ends k ticks after the action was written, none of the
    ticks before the k-th ended the episode, and k is less than 4 only
    if the k-th tick ended it. *)
Theorem step_count_counts_ticks (a : Z) (w : POPEnv) :
  ready w = true ->
  exists k,
    (1 <= k <= 4)%nat /\
    step_count (world_of (step a w)) = step_count w + Z.of_nat k /\
    lib (world_of (step a w)) =
      Nat.iter k play_level_2 (set_rl_action (c_int a) (lib w)) /\
    (forall i, (1 <= i < k)%nat ->
       ends_episode
         (Nat.iter i play_level_2 (set_rl_action (c_int a) (lib w)))
       = false) /\
    ((k < 4)%nat ->
     ends_episode
       (Nat.iter k play_level_2 (set_rl_action (c_int a) (lib w)))
     = true).
Proof.
  intros Hr. exists (ticks_of a w). rewrite (step_world a w Hr).
  cbn [set_frame_buffer banked set_total_reward step_count lib].
  destruct (ticks_run_bounds 4 (lib (armed a w))) as [Hle Hpos].
  destruct (ticks_run_first 4 (lib (armed a w))) as [Hbefore Hlast].
  split; [unfold ticks_of; lia|].
  split; [apply skipped_step_count|].
  split; [apply skipped_lib|].
  split; [exact Hbefore | exact Hlast].
Qed.

(** C10. [reset] stores 0 in [rl_kid_dead] after [init_game] and before
    the observation is taken: whatever the flag was, and whatever
    [init_game] did to it, the adapter is left with the flag at 0, and
    the observation [reset] returns has 1.0 as its alive feature. *)
Theorem reset_reports_alive (w : POPEnv) :
  hitp_max (init_game 1 (lib w)) <> 0 ->
  exists o hp w',
    reset w = Ok (o, hp) w' /\
    nth_error (state o) 3 = Some 1%float /\
    lib w' = set_rl_kid_dead 0 (init_game 1 (lib w)) /\
    rl_kid_dead (lib w') = 0.
Proof.
  intros Hz. rewrite reset_unfold.
  rewrite (get_obs_ok (fresh w)) by exact Hz.
  eexists _, _, _. split; [reflexivity|].
  repeat split.
Qed.

End Claims.

(** ** More of the adapter's behaviour *)

Section Unready.
Context {engine : SDLPoP} {imaging : Imaging}.

(** A tick on an adapter without [got_sword] gets as far as the sword
    test: the engine has ticked and [step_count] has grown. *)
Lemma tick_without_got_sword t w :
  got_sword w = None ->
  tick t w =
  Raise (AttributeError "got_sword")
        (set_step_count (step_count w + 1)
                        (set_lib (play_level_2 (lib w)) w)).
Proof.
  destruct w as [e gp fb tr sc ms ph er gs vr pr]. cbn [got_sword].
  intros ->. crunch.
  destruct ph as [p|]; repeat (split_test; crunch); reflexivity.
Qed.

(** Without one of the attributes [reset] creates, a tick raises
    [AttributeError]. *)
Lemma tick_unready t w :
  ready w = false -> attribute_error (tick t w) = true.
Proof.
  destruct w as [e gp fb tr sc ms ph er gs vr pr]. unfold ready.
  cbn [got_sword visited_rooms prev_room_id].
  destruct gs as [g|], vr as [v|], pr as [r|]; try discriminate; intros _;
    crunch; destruct ph as [p|]; repeat (split_test; crunch); reflexivity.
Qed.

Lemma frame_skip_unready n sr t w :
  ready w = false -> attribute_error (frame_skip (S n) sr t w) = true.
Proof.
  intros Hr. cbn [frame_skip]. unfold bind.
  pose proof (tick_unready t w Hr) as Ht.
  destruct (tick t w) as [[fr t'] w1|x w1]; [discriminate | exact Ht].
Qed.

Lemma step_unready a w :
  ready w = false -> attribute_error (step a w) = true.
Proof.
  intros Hr. unfold step. cbv zeta. unfold bind at 1. unfold poke, modify.
  unfold bind at 1.
  assert (Ha : ready (armed a w) = false) by (destruct w; exact Hr).
  pose proof (frame_skip_unready 3 0%float false (armed a w) Ha) as Hf.
  fold (armed a w).
  destruct (frame_skip 4 0 false (armed a w)) as [[sr t] w1|x w1];
    [discriminate | exact Hf].
Qed.

(** A [step] that returns was made on an adapter that went through
    [reset]. *)
Lemma step_returns_ready a w r w' : step a w = Ok r w' -> ready w = true.
Proof.
  intros Hs. destruct (ready w) eqn:Hr; [reflexivity|].
  pose proof (step_unready a w Hr) as Hu. rewrite Hs in Hu. discriminate.
Qed.

(** X1. [step] on an adapter on which [reset] was never called (it has no
    [got_sword]) raises [AttributeError] for [got_sword], and only after
    the action was stored, the engine advanced by one tick and
    [step_count] incremented; [total_reward] and [prev_hp] are as
    before. *)
Theorem step_before_reset (a : Z) (w : POPEnv) :
  got_sword w = None ->
  exists w',
    step a w = Raise (AttributeError "got_sword") w' /\
    lib w' = play_level_2 (set_rl_action (c_int a) (lib w)) /\
    step_count w' = step_count w + 1 /\
    total_reward w' = total_reward w /\
    prev_hp w' = prev_hp w.
Proof.
  intros Hg. eexists. split.
  - unfold step. cbv zeta. unfold bind at 1. unfold poke, modify.
    unfold bind at 1. cbn [frame_skip]. unfold bind at 1.
    rewrite tick_without_got_sword by (destruct w; exact Hg).
    reflexivity.
  - destruct w. repeat split.
Qed.

End Unready.

Section MoreTicks.
Context {engine : SDLPoP} {imaging : Imaging}.

(** X2. A tick that finds [current_level] above 1 adds 10 to its reward
    (the level component of the sum is 10), sets [terminated], and ends
    the frame-skip loop there, however many iterations were left. *)
Theorem level_advance_exits_loop (n : nat) (sr : float) (t : bool)
    (w : POPEnv) :
  ready w = true ->
  1 < current_level (play_level_2 (lib w)) ->
  exists fr w',
    tick t w = Ok (fr, true) w' /\
    fr = fold_left PrimFloat.add
           [health_loss w (play_level_2 (lib w));
            health_gain w (play_level_2 (lib w));
            death (play_level_2 (lib w));
            10%float;
            sword_bonus w (play_level_2 (lib w));
            new_room w (play_level_2 (lib w));
            boss_combat w (play_level_2 (lib w))]
           (-0.01)%float /\
    frame_skip (S n) sr t w = Ok ((sr + fr)%float, true) w' /\
    lib w' = play_level_2 (lib w) /\
    step_count w' = step_count w + 1.
Proof.
  intros Hr Hl.
  assert (Hgt : (current_level (play_level_2 (lib w)) >? 1) = true)
    by (rewrite Z.gtb_ltb; apply Z.ltb_lt; exact Hl).
  assert (He : ends_episode (play_level_2 (lib w)) = true).
  { unfold ends_episode. rewrite Hgt. apply orb_true_r. }
  exists (shaped_reward w (play_level_2 (lib w))), (advance w).
  pose proof (tick_ready t w Hr) as Ht.
  rewrite He, orb_true_r in Ht.
  repeat split.
  - exact Ht.
  - unfold shaped_reward, reward_terms, base_cost, level_advance.
    now rewrite Hgt.
  - cbn [frame_skip]. unfold bind. rewrite Ht. reflexivity.
Qed.

(** X3. The health component of a tick's reward, against the hit points
    the adapter remembered: -1 when they dropped, +1 when they rose,
    nothing when they did not change, never both; the tick then remembers
    the new hit points. *)
Theorem health_change_component (t : bool) (w : POPEnv) (p : Z) :
  ready w = true ->
  prev_hp w = Some p ->
  exists h w',
    tick t w =
      Ok (fold_left PrimFloat.add
            [h;
             death (play_level_2 (lib w));
             level_advance (play_level_2 (lib w));
             sword_bonus w (play_level_2 (lib w));
             new_room w (play_level_2 (lib w));
             boss_combat w (play_level_2 (lib w))]
            (-0.01)%float,
          t || ends_episode (play_level_2 (lib w)))
         w' /\
    (hitp_curr (play_level_2 (lib w)) < p -> h = (-1)%float) /\
    (p < hitp_curr (play_level_2 (lib w)) -> h = 1%float) /\
    (hitp_curr (play_level_2 (lib w)) = p -> h = 0%float) /\
    prev_hp w' = Some (hitp_curr (play_level_2 (lib w))).
Proof.
  intros Hr Hp. set (e := play_level_2 (lib w)).
  exists (if hitp_curr e <? p then (-1)%float
          else if hitp_curr e >? p then 1%float else 0%float),
         (advance w).
  split.
  - rewrite (tick_ready t w Hr). fold e. apply res_eq; [|reflexivity].
    f_equal. unfold shaped_reward, reward_terms, base_cost, health_loss,
      health_gain. rewrite Hp. cbn [fold_left].
    destruct (Z.ltb_spec (hitp_curr e) p) as [Hlt|Hge].
    + replace (hitp_curr e >? p) with false
        by (symmetry; rewrite Z.gtb_ltb; apply Z.ltb_ge; lia).
      reflexivity.
    + destruct (hitp_curr e >? p); reflexivity.
  - rewrite Z.gtb_ltb.
    destruct (Z.ltb_spec (hitp_curr e) p), (Z.ltb_spec p (hitp_curr e));
      repeat split; intros; first [reflexivity | lia].
Qed.

(** X4. The exploration component of a tick's reward and its effect on
    [visited_rooms]: 4 exactly when [have_sword] did not rise above
    [got_sword] and the room was not in the set; afterwards the room is
    in the set, and without a sword pickup every room that was in the set
    still is. *)
Theorem exploration_component (t : bool) (w : POPEnv) (g : Z)
    (v : gset Z) :
  prev_room_id w <> None ->
  got_sword w = Some g ->
  visited_rooms w = Some v ->
  exists x v' w',
    tick t w =
      Ok (fold_left PrimFloat.add
            [health_loss w (play_level_2 (lib w));
             health_gain w (play_level_2 (lib w));
             death (play_level_2 (lib w));
             level_advance (play_level_2 (lib w));
             sword_bonus w (play_level_2 (lib w));
             x;
             boss_combat w (play_level_2 (lib w))]
            (-0.01)%float,
          t || ends_episode (play_level_2 (lib w)))
         w' /\
    (x = 4%float <->
     have_sword (play_level_2 (lib w)) <= g /\
     curr_room (play_level_2 (lib w)) ∉ v) /\
    (x <> 4%float -> x = 0%float) /\
    visited_rooms w' = Some v' /\
    curr_room (play_level_2 (lib w)) ∈ v' /\
    (have_sword (play_level_2 (lib w)) <= g -> v ⊆ v').
Proof.
  intros Hp Hg Hv. set (e := play_level_2 (lib w)).
  assert (Hr : ready w = true).
  { unfold ready. rewrite Hg, Hv. now destruct (prev_room_id w). }
  exists (new_room w e), ({[curr_room e]} ∪ rooms_seen w e), (advance w).
  split; [apply (tick_ready t w Hr)|].
  assert (Hedge : sword_edge w e = (have_sword e >? g))
    by (unfold sword_edge; now rewrite Hg).
  assert (Hseen : rooms_seen w e =
                  if have_sword e >? g then {[curr_room e]} else v).
  { unfold rooms_seen. rewrite Hedge, Hv. reflexivity. }
  split; [|split; [|split; [reflexivity|split]]].
  - unfold new_room. rewrite Hseen, Z.gtb_ltb.
    destruct (Z.ltb_spec g (have_sword e)) as [Hlt|Hle].
    + rewrite decide_True by (now apply elem_of_singleton_2).
      split; [discriminate | intros [Hle _]; lia].
    + destruct (decide (curr_room e ∈ v)) as [Hin|Hout].
      * split; [discriminate | intros [_ Hout]; contradiction].
      * split; [intros _; split; [exact Hle | exact Hout] | reflexivity].
  - unfold new_room. destruct (decide _); [reflexivity | contradiction].
  - apply elem_of_union_l. now apply elem_of_singleton_2.
  - intros Hle. rewrite Hseen.
    replace (have_sword e >? g) with false
      by (symmetry; rewrite Z.gtb_ltb; apply Z.ltb_ge; exact Hle).
    apply union_subseteq_r.
Qed.

(** X5. [got_sword] never goes down and the sword bonus is paid once per
    rise: a tick leaves [got_sword] at the larger of its old value and
    [have_sword], and a next tick in which [have_sword] is no larger than
    in this one has no sword component and leaves [got_sword] alone. *)
Theorem sword_bonus_once (t t2 : bool) (w : POPEnv) (g : Z) :
  ready w = true ->
  got_sword w = Some g ->
  exists fr t' w',
    tick t w = Ok (fr, t') w' /\
    got_sword w' = Some (Z.max g (have_sword (play_level_2 (lib w)))) /\
    (have_sword (play_level_2 (lib w')) <=
       have_sword (play_level_2 (lib w)) ->
     exists t2' w2,
       tick t2 w' =
         Ok (fold_left PrimFloat.add
               [health_loss w' (play_level_2 (lib w'));
                health_gain w' (play_level_2 (lib w'));
                death (play_level_2 (lib w'));
                level_advance (play_level_2 (lib w'));
                0%float;
                new_room w' (play_level_2 (lib w'));
                boss_combat w' (play_level_2 (lib w'))]
               (-0.01)%float, t2') w2 /\
       got_sword w2 = got_sword w').
Proof.
  intros Hr Hg. set (e := play_level_2 (lib w)).
  assert (Hgot : got_sword (advance w) = Some (Z.max g (have_sword e))).
  { unfold advance, sword_edge. fold e. cbn [got_sword]. rewrite Hg.
    cbn [default from_option id]. rewrite Z.gtb_ltb.
    destruct (Z.ltb_spec g (have_sword e)); f_equal; lia. }
  eexists _, _, (advance w). split; [apply (tick_ready t w Hr)|].
  split; [exact Hgot|]. intros Hle.
  assert (Hedge2 : sword_edge (advance w) (play_level_2 (lib (advance w)))
                   = false).
  { unfold sword_edge. rewrite Hgot, Z.gtb_ltb. apply Z.ltb_ge.
    fold e in Hle. lia. }
  eexists _, (advance (advance w)). split.
  - rewrite (tick_ready t2 (advance w) (advance_ready w)).
    apply res_eq; [|reflexivity]. f_equal.
    unfold shaped_reward, reward_terms, base_cost, sword_bonus.
    now rewrite Hedge2.
  - unfold advance at 1. cbn [got_sword]. rewrite Hedge2, Hgot.
    reflexivity.
Qed.

(** X6. The reward of one tick lies between -0.01 - 1 - 10 (health lost
    and death) and -0.01 + 1 + 10 + 7 + 3 (health gained, level advance,
    sword pickup and killing blow), as doubles. *)
Theorem tick_reward_bounds (t : bool) (w : POPEnv) :
  ready w = true ->
  exists fr t' w',
    tick t w = Ok (fr, t') w' /\
    ((-0.01 - 1 - 10 <=? fr) = true /\
     (fr <=? -0.01 + 1 + 10 + 7 + 3) = true)%float.
Proof.
  intros Hr. eexists _, _, _. split; [apply (tick_ready t w Hr)|].
  set (e := play_level_2 (lib w)).
  unfold shaped_reward, reward_terms, base_cost, health_loss, health_gain,
    death, level_advance, sword_bonus, boss_combat.
  assert (Hroom : sword_edge w e = true -> new_room w e = 0%float).
  { intros He. apply new_room_seen. unfold rooms_seen. rewrite He.
    now apply elem_of_singleton_2. }
  assert (Hroom' : new_room w e = 0%float \/ new_room w e = 4%float).
  { unfold new_room. destruct (decide _); [left | right]; reflexivity. }
  destruct (sword_edge w e).
  - rewrite (Hroom eq_refl). clear Hroom Hroom'.
    destruct (prev_hp w), (prev_room_id w); cbn [fold_left];
      repeat match goal with
             | |- context [if ?c then _ else _] => destruct c
             end; split; reflexivity.
  - clear Hroom. destruct Hroom' as [-> | ->];
      destruct (prev_hp w), (prev_room_id w); cbn [fold_left];
      repeat match goal with
             | |- context [if ?c then _ else _] => destruct c
             end; split; reflexivity.
Qed.

End MoreTicks.

Section MoreCalls.
Context {engine : SDLPoP} {imaging : Imaging}.

Lemma advance_synced w :
  ready w = true ->
  synced (advance w) /\
  exists g, got_sword (advance w) = Some g /\ have_sword (lib (advance w)) <= g.
Proof.
  intros Hr. destruct (ready_inv w Hr) as (g & v & r & Hg & _ & _).
  set (e := play_level_2 (lib w)). split.
  - unfold synced, advance. fold e.
    cbn [prev_hp guardhp_prev prev_room_id visited_rooms lib].
    repeat split. eexists. split; [reflexivity|].
    apply elem_of_union_l. now apply elem_of_singleton_2.
  - unfold advance, sword_edge. fold e. cbn [got_sword lib]. rewrite Hg.
    cbn [default from_option id]. eexists. split; [reflexivity|].
    rewrite Z.gtb_ltb. destruct (Z.ltb_spec g (have_sword e)); lia.
Qed.

Lemma skipped_last a w :
  exists y, ready y = true /\ skipped a w = advance y \/
            (ready w = false /\ y = w).
Proof.
  destruct (ready w) eqn:Hr.
  - destruct (ticks_run_bounds 4 (lib (armed a w))) as [_ Hpos].
    unfold skipped, ticks_of.
    destruct (ticks_run 4 (lib (armed a w))) as [|k]; [now elim Hpos|].
    exists (Nat.iter k advance (armed a w)). left. split.
    + apply iter_advance_ready, armed_ready, Hr.
    + apply Nat.iter_succ.
  - exists w. right. split; reflexivity.
Qed.

(** What a returning [step] returned and left, read off the adapter it
    started from. *)
Lemma step_ok_inv a w r w' :
  step a w = Ok r w' ->
  ready w = true /\
  hitp_max (lib (skipped a w)) <> 0 /\
  w' = set_frame_buffer (rl_get_frame (lib (skipped a w))) (banked a w) /\
  r = mkStep (mkObs (to_pixels (rl_get_frame (lib (skipped a w))))
                    (features (lib (skipped a w))))
             (step_reward_of a w)
             (ends_episode (lib (skipped a w)))
             (max_steps w <=? step_count w + Z.of_nat (ticks_of a w))
             (mkInfo (hitp_curr (lib (skipped a w)))
                     (step_count w + Z.of_nat (ticks_of a w))
                     (total_reward w + step_reward_of a w)
                     (default 0 (got_sword (skipped a w)))).
Proof.
  intros Hs. pose proof (step_returns_ready a w r w' Hs) as Hr.
  split; [exact Hr|]. rewrite (step_ready a w Hr) in Hs.
  destruct (Z.eq_dec (hitp_max (lib (skipped a w))) 0) as [Hz|Hz].
  - rewrite (get_obs_zero (banked a w) Hz) in Hs. discriminate.
  - split; [exact Hz|]. rewrite (get_obs_ok (banked a w) Hz) in Hs.
    injection Hs as <- <-. split; reflexivity.
Qed.

Lemma step_ok_counts a w r w' :
  step a w = Ok r w' ->
  exists k,
    (1 <= k <= 4)%nat /\
    step_count w' = step_count w + Z.of_nat k /\
    max_steps w' = max_steps w /\
    truncated r = (max_steps w <=? step_count w').
Proof.
  intros Hs. destruct (step_ok_inv a w r w' Hs) as (_ & _ & -> & ->).
  exists (ticks_of a w).
  destruct (ticks_run_bounds 4 (lib (armed a w))) as [Hle Hpos].
  split; [unfold ticks_of; lia|].
  cbn [truncated set_frame_buffer banked set_total_reward step_count
       max_steps].
  rewrite skipped_step_count. destruct (skipped_frame a w) as (-> & _ & _).
  repeat split.
Qed.

(** X7. [reset] never raises [AttributeError]: it returns, unless
    [hitp_max] is 0 after [init_game], when it raises [ZeroDivisionError].
    Either way it leaves the adapter ready for [step], with [step_count]
    and [got_sword] at 0, the trackers holding what the engine shows, and
    [visited_rooms] holding the start room alone. *)
Theorem reset_makes_ready (w : POPEnv) :
  ready (world_of (reset w)) = true /\
  synced (world_of (reset w)) /\
  step_count (world_of (reset w)) = 0 /\
  got_sword (world_of (reset w)) = Some 0 /\
  visited_rooms (world_of (reset w)) =
    Some {[curr_room (lib (world_of (reset w)))]} /\
  lib (world_of (reset w)) = set_rl_kid_dead 0 (init_game 1 (lib w)) /\
  (hitp_max (init_game 1 (lib w)) <> 0 ->
   exists o hp, reset w = Ok (o, hp) (world_of (reset w))) /\
  (hitp_max (init_game 1 (lib w)) = 0 ->
   reset w = Raise ZeroDivisionError (world_of (reset w))).
Proof.
  assert (Hw : world_of (reset w) =
               set_frame_buffer (rl_get_frame (lib (fresh w))) (fresh w)).
  { rewrite reset_unfold. pose proof (get_obs_world (fresh w)) as Hw.
    destruct (_get_obs (fresh w)); exact Hw. }
  rewrite Hw. split; [reflexivity|]. split.
  { unfold synced, fresh.
    cbn [set_frame_buffer prev_hp guardhp_prev prev_room_id visited_rooms
         lib].
    repeat split. eexists. split; [reflexivity|]. apply in_reseeded. }
  split; [reflexivity|]. split; [reflexivity|]. split.
  { unfold fresh. cbn [set_frame_buffer visited_rooms lib].
    now rewrite union_empty_r_L. }
  split; [reflexivity|]. split.
  - intros Hz. rewrite reset_unfold, (get_obs_ok (fresh w)) by exact Hz.
    eexists _, _. reflexivity.
  - intros Hz. rewrite reset_unfold, (get_obs_zero (fresh w)) by exact Hz.
    reflexivity.
Qed.

(** X8. After a [step] on an adapter that went through [reset], returned
    or raised, the adapter is still ready, the trackers hold what the
    engine shows after the last tick, the current room counts as visited,
    and [got_sword] is at least [have_sword]. *)
Theorem step_keeps_synced (a : Z) (w : POPEnv) :
  ready w = true ->
  ready (world_of (step a w)) = true /\
  synced (world_of (step a w)) /\
  exists g,
    got_sword (world_of (step a w)) = Some g /\
    have_sword (lib (world_of (step a w))) <= g.
Proof.
  intros Hr. rewrite (step_world a w Hr).
  destruct (skipped_last a w) as [y [[Hy Hsk] | [Hn _]]];
    [|rewrite Hr in Hn; discriminate].
  destruct (advance_synced y Hy) as [Hsy Hgot].
  unfold synced, banked.
  cbn [set_frame_buffer set_total_reward prev_hp guardhp_prev prev_room_id
       visited_rooms lib got_sword].
  rewrite Hsk. split; [reflexivity|]. split; [exact Hsy | exact Hgot].
Qed.

(** X9. When [hitp_max] is 0 after the last tick of a [step], the call
    raises [ZeroDivisionError] at the observation, after the ticks were
    counted in [step_count] and their rewards added to [total_reward]:
    the reward is accumulated and never returned. *)
Theorem step_fails_after_banking (a : Z) (w : POPEnv) :
  ready w = true ->
  hitp_max (lib (world_of (step a w))) = 0 ->
  exists w' k,
    step a w = Raise ZeroDivisionError w' /\
    (1 <= k <= 4)%nat /\
    step_count w' = step_count w + Z.of_nat k /\
    total_reward w' =
      (total_reward w +
       fold_left PrimFloat.add
         (rewards_of k (set_lib (set_rl_action (c_int a) (lib w)) w))
         0)%float.
Proof.
  intros Hr Hz. rewrite (step_world a w Hr) in Hz.
  pose proof (step_ready a w Hr) as Hs.
  rewrite (get_obs_zero (banked a w) Hz) in Hs.
  eexists _, (ticks_of a w). split; [exact Hs|].
  destruct (ticks_run_bounds 4 (lib (armed a w))) as [Hle Hpos].
  split; [unfold ticks_of; lia|].
  cbn [set_frame_buffer banked set_total_reward step_count total_reward].
  split; [apply skipped_step_count|].
  destruct (skipped_frame a w) as (_ & -> & _). reflexivity.
Qed.

(** X10. [step] never lowers [step_count] and never changes [max_steps]:
    once a [step] has returned [truncated], every later [step] on the
    adapter that returns is truncated too, until a [reset]. *)
Theorem truncation_persists (a a2 : Z) (w w' w2 : POPEnv)
    (r r2 : StepResult) :
  step a w = Ok r w' ->
  truncated r = true ->
  step a2 w' = Ok r2 w2 ->
  truncated r2 = true /\
  step_count w < step_count w' < step_count w2 /\
  max_steps w2 = max_steps w.
Proof.
  intros Hs Ht Hs2.
  destruct (step_ok_counts a w r w' Hs) as (k & Hk & Hc & Hm & Htr).
  destruct (step_ok_counts a2 w' r2 w2 Hs2) as (k2 & Hk2 & Hc2 & Hm2 & Htr2).
  rewrite Htr in Ht. apply Z.leb_le in Ht.
  split; [rewrite Htr2; apply Z.leb_le; lia|]. split; [lia | congruence].
Qed.

(** X11. What a returning [step] reports is the adapter and the engine as
    the call leaves them: the info dict holds the current hit points,
    [step_count], [total_reward] and [got_sword]; the features are those
    of the engine after the last tick and the image is made from the
    refreshed frame buffer; [truncated] and [terminated] are the tests on
    the final [step_count] and engine. *)
Theorem step_result_matches_adapter (a : Z) (w w' : POPEnv)
    (r : StepResult) :
  step a w = Ok r w' ->
  info_hp (info r) = hitp_curr (lib w') /\
  info_step (info r) = step_count w' /\
  info_total_reward (info r) = total_reward w' /\
  got_sword w' = Some (info_has_sword (info r)) /\
  state (obs r) = features (lib w') /\
  pixels (obs r) = to_pixels (frame_buffer w') /\
  frame_buffer w' = rl_get_frame (lib w') /\
  truncated r = (max_steps w' <=? step_count w') /\
  terminated r = ends_episode (lib w').
Proof.
  intros Hs. destruct (step_ok_inv a w r w' Hs) as (Hr & _ & -> & ->).
  destruct (ready_inv _ (skipped_ready a w Hr)) as (g & _ & _ & Hg & _).
  cbn [info info_hp info_step info_total_reward info_has_sword obs state
       pixels truncated terminated set_frame_buffer banked
       set_total_reward lib step_count total_reward got_sword frame_buffer
       max_steps].
  rewrite skipped_step_count, Hg.
  destruct (skipped_frame a w) as (-> & -> & _).
  repeat split.
Qed.

(** X12. [reset] starts the episode from the engine alone: two adapters
    with the same engine memory, [total_reward] and [max_steps] are reset
    to the same adapter with the same result, whatever their counters,
    trackers, visited rooms and frame buffers were. *)
Theorem reset_forgets_episode (w1 w2 : POPEnv) :
  lib w1 = lib w2 ->
  total_reward w1 = total_reward w2 ->
  max_steps w1 = max_steps w2 ->
  reset w1 = reset w2.
Proof.
  intros Hl Ht Hm. rewrite !reset_unfold.
  assert (Hf : set_frame_buffer (rl_get_frame (lib (fresh w1))) (fresh w1) =
               set_frame_buffer (rl_get_frame (lib (fresh w2))) (fresh w2)).
  { unfold fresh, set_frame_buffer. cbn. now rewrite Hl, Ht, Hm. }
  assert (Hlib : lib (fresh w1) = lib (fresh w2))
    by (unfold fresh; cbn [lib]; now rewrite Hl).
  destruct (Z.eq_dec (hitp_max (lib (fresh w1))) 0) as [Hz|Hz].
  - rewrite (get_obs_zero (fresh w1) Hz).
    rewrite Hlib in Hz. rewrite (get_obs_zero (fresh w2) Hz).
    now rewrite Hf.
  - rewrite (get_obs_ok (fresh w1) Hz).
    rewrite Hlib in Hz. rewrite (get_obs_ok (fresh w2) Hz).
    now rewrite Hf, Hlib.
Qed.


Lemma close_only_leaves_step_mode_frame w :
  ready (world_of (close w)) = ready w /\
  (synced w -> synced (world_of (close w))).
Proof.
  destruct w as [e gp fb tr sc ms ph er gs vr pr]. split; [reflexivity|].
  unfold synced. destruct e. cbn. trivial.
Qed.

(** X14. [close] always returns, stores 0 in [rl_step_mode] and touches
    nothing else of the engine or of the adapter; closing twice is
    closing once. *)
Theorem close_only_leaves_step_mode (w : POPEnv) :
  exists w',
    close w = Ok tt w' /\
    rl_step_mode (lib w') = 0 /\
    set_rl_step_mode (rl_step_mode (lib w)) (lib w') = lib w /\
    set_lib (lib w) w' = w /\
    close w' = Ok tt w'.
Proof.
  destruct w as [[m ac sl kd cl hc hm hs cr gh hid] gp fb tr sc ms ph er gs
                 vr pr].
  eexists. split; [reflexivity|]. repeat split.
Qed.

Lemma ok_of_value {A} (c : Res A) (a : A) :
  value_of c = Some a -> c = Ok a (world_of c).
Proof. destruct c; [intros [= ->]; reflexivity | discriminate]. Qed.

Lemma zrange_forallb (f : Z -> bool) (lo : Z) (n : nat) (x : Z) :
  forallb f (zrange lo n) = true ->
  lo <= x < lo + Z.of_nat n -> f x = true.
Proof.
  intros Hall Hx. rewrite forallb_forall in Hall. apply Hall.
  unfold zrange. apply in_map_iff. exists (Z.to_nat (x - lo)).
  split; [lia|]. apply in_seq. lia.
Qed.

(** X15. An observation that [_get_obs] returns has four features, and
    they lie in the box [0, 1] of the observation space whenever the
    engine shows 0 <= hitp_curr <= hitp_max <= 10 and
    0 <= current_level <= 15. *)
Theorem observation_in_box (w w' : POPEnv) (o : Obs) :
  _get_obs w = Ok o w' ->
  0 <= hitp_curr (lib w) <= hitp_max (lib w) ->
  hitp_max (lib w) <= 10 ->
  0 <= current_level (lib w) <= 15 ->
  length (state o) = 4%nat /\ forallb in_unit (state o) = true.
Proof.
  intros Ho Hhp Hmax Hlvl.
  destruct (Z.eq_dec (hitp_max (lib w)) 0) as [Hz|Hz];
    [rewrite (get_obs_zero w Hz) in Ho; discriminate|].
  rewrite (get_obs_ok w Hz) in Ho. injection Ho as <- _.
  split; [reflexivity|]. unfold features. cbn [state map forallb].
  set (hp := hitp_curr (lib w)) in *. set (m := hitp_max (lib w)) in *.
  set (l := current_level (lib w)) in *.
  pose (f1 := fun m => forallb (fun hp =>
                  negb (hp <=? m) ||
                  in_unit (np_float32 (float_of_Z hp / float_of_Z m)))
                  (zrange 0 11)).
  assert (H1 : f1 m = true)
    by (apply (zrange_forallb f1 1 10); [vm_compute; reflexivity | lia]).
  pose (g1 := fun hp => negb (hp <=? m) ||
                in_unit (np_float32 (float_of_Z hp / float_of_Z m))).
  assert (H1' : g1 hp = true)
    by (apply (zrange_forallb g1 0 11); [exact H1 | lia]).
  unfold g1 in H1'.
  replace (hp <=? m) with true in H1' by (symmetry; apply Z.leb_le; lia).
  cbn [negb orb] in H1'. rewrite H1'.
  pose (f2 := fun m => in_unit (np_float32 (float_of_Z m / 10))).
  assert (H2 : f2 m = true)
    by (apply (zrange_forallb f2 1 10); [vm_compute; reflexivity | lia]).
  unfold f2 in H2. rewrite H2.
  pose (f3 := fun l => in_unit (np_float32 (float_of_Z l / 15))).
  assert (H3 : f3 l = true)
    by (apply (zrange_forallb f3 0 16); [vm_compute; reflexivity | lia]).
  unfold f3 in H3. rewrite H3.
  destruct (rl_kid_dead (lib w) =? 0); reflexivity.
Qed.

Lemma world_of_bind {A B} (c : Py A) (k : A -> Py B) (w : POPEnv) :
  world_of (bind c k w) =
  match c w with
  | Ok a w1 => world_of (k a w1)
  | Raise _ w1 => w1
  end.
Proof. unfold bind. destruct (c w); reflexivity. Qed.

Lemma tick_keeps_ready t : keeps ready (tick t).
Proof.
  intros [e gp fb tr sc ms ph er gs vr pr].
  destruct gs as [g|], vr as [v|], pr as [r|], ph as [p|]; crunch;
    repeat (split_test; crunch); reflexivity.
Qed.

Lemma get_obs_keeps_ready : keeps ready _get_obs.
Proof. unfold _get_obs, truediv, peek. cbv zeta. walk leaf_keeps. Qed.

Lemma step_keeps_ready a : keeps ready (step a).
Proof.
  unfold step, peek, poke. cbv zeta.
  walk ltac:(first [ apply get_obs_keeps_ready
                   | apply frame_skip_keeps, tick_keeps_ready
                   | leaf_keeps ]).
Qed.

(** X16. For the adapter's whole life, from the constructor through any
    sequence of [reset], [step] and [close] calls, up to a call that
    raises: [max_steps] stays 2,000,000, and whenever the attributes of
    [reset] are there the trackers hold what the engine shows and the
    current room counts as visited. *)
Theorem session_invariant (cs : list call) (memory : Sim) :
  max_steps (world_of (session cs (__init__ memory))) = 2000000 /\
  (ready (world_of (session cs (__init__ memory))) = true ->
   synced (world_of (session cs (__init__ memory)))).
Proof.
  assert (Hgen : forall cs w0,
             (ready w0 = true -> synced w0) ->
             ready (world_of (session cs w0)) = true ->
             synced (world_of (session cs w0))).
  { clear cs. induction cs as [|[|a|] cs IH]; intros w0 H0; cbn [session].
    - exact H0.
    - rewrite world_of_bind.
      destruct (reset_makes_ready w0) as (Hr & Hs & _).
      destruct (reset w0) as [o w1|x w1]; cbn [world_of] in Hr, Hs.
      + apply IH. intros _. exact Hs.
      + intros _. exact Hs.
    - rewrite world_of_bind.
      assert (H1 : ready (world_of (step a w0)) = true ->
                   synced (world_of (step a w0))).
      { intros Hr1. rewrite step_keeps_ready in Hr1.
        apply (step_keeps_synced a w0 Hr1). }
      destruct (step a w0) as [r w1|x w1]; cbn [world_of] in H1;
        [|exact H1].
      rewrite world_of_bind. specialize (IH w1 H1).
      destruct (session cs w1); exact IH.
    - rewrite world_of_bind.
      destruct (close_only_leaves_step_mode_frame w0) as (Hr & Hs).
      destruct (close w0) as [o w1|x w1]; cbn [world_of] in Hr, Hs.
      + apply IH. intros Hr1. apply Hs, H0. now rewrite <- Hr.
      + intros Hr1. apply Hs, H0. now rewrite <- Hr. }
  split; [now rewrite session_keeps_limit|].
  apply Hgen. discriminate.
Qed.

End MoreCalls.

(** ** The claims on concrete episodes *)

#[local] Existing Instance scripted.
#[local] Existing Instance blank_image.

Lemma death_tick_exits_loop_witness :
  ready fatal = true /\
  rl_kid_dead (play_level_2 (lib fatal)) = 1 /\
  exists fr w',
    tick false fatal = Ok (fr, true) w' /\
    fr = fold_left PrimFloat.add
           [(-1)%float; 0%float; (-10)%float; 0%float; 0%float; 0%float;
            0%float] (-0.01)%float /\
    frame_skip 4 0%float false fatal = Ok ((0 + fr)%float, true) w' /\
    step_count w' = 1.
Proof.
  split; [reflexivity|]. split; [reflexivity|].
  destruct (death_tick_exits_loop (engine := scripted) 3 0%float false
              fatal eq_refl eq_refl)
    as (fr & w' & Ht & Hfr & Hl & _ & Hc).
  exists fr, w'. repeat split; [exact Ht | | exact Hl | exact Hc].
  rewrite Hfr. reflexivity.
Defined.



(** C3, as stated, fails: the action code 7 is outside 0..5, and [step]
    stores it in [rl_action], runs its four ticks and returns their
    rewards. *)
Lemma step_accepts_action_7 :
  ~ (0 <= 7 <= 5) /\
  exists r w',
    step 7 quiet = Ok r w' /\
    rl_action (lib w') = 7 /\
    reward r = (0 + -0.01 + -0.01 + -0.01 + -0.01)%float /\
    terminated r = false /\
    step_count w' = 4.
Proof.
  split; [lia|].
  eexists _, _. split.
  { rewrite (step_ready 7 quiet eq_refl).
    rewrite (get_obs_ok (banked 7 quiet)) by (vm_compute; lia).
    reflexivity. }
  repeat split.
Qed.

Lemma step_takes_any_action_witness :
  ready quiet = true /\
  hitp_max (lib (world_of (step 7 quiet))) = 3 /\
  exists r w' k,
    step 7 quiet = Ok r w' /\
    (1 <= k <= 4)%nat /\
    lib w' = Nat.iter k play_level_2 (set_rl_action (c_int 7) (lib quiet)) /\
    reward r =
      fold_left PrimFloat.add
        (rewards_of k (set_lib (set_rl_action (c_int 7) (lib quiet)) quiet))
        0%float.
Proof.
  split; [reflexivity|]. split; [reflexivity|].
  apply (step_takes_any_action (engine := scripted) 7 quiet eq_refl).
  vm_compute. lia.
Defined.

(** The step reaches the limit: it is truncated, and not terminated. *)
Lemma step_flags_witness :
  ready near_limit = true /\
  max_steps near_limit = 2000000 /\
  hitp_max (lib (world_of (step 2 near_limit))) = 3 /\
  step_count (world_of (step 2 near_limit)) = 2000000 /\
  value_of (step 2 near_limit) =
    Some (mkStep (mkObs (to_pixels (rl_get_frame (lib near_limit)))
                        [1%float; np_float32 (3 / 10)%float;
                         np_float32 (1 / 15)%float; 1%float])
                 (0 + -0.01 + -0.01 + -0.01 + -0.01)%float
                 false true
                 (mkInfo 3 2000000
                         (0 + (0 + -0.01 + -0.01 + -0.01 + -0.01))%float
                         0)) /\
  rl_kid_dead (lib (world_of (step 2 near_limit))) = 0 /\
  current_level (lib (world_of (step 2 near_limit))) = 1 /\
  exists r w' k,
    step 2 near_limit = Ok r w' /\
    (truncated r = true <-> 2000000 <= step_count w') /\
    (terminated r = true <->
     rl_kid_dead (lib w') = 1 \/ 1 < current_level (lib w')) /\
    (1 <= k <= 4)%nat /\
    lib w' = Nat.iter k play_level_2
               (set_rl_action (c_int 2) (lib near_limit)).
Proof.
  split; [reflexivity|]. split; [reflexivity|]. split; [reflexivity|].
  split; [reflexivity|]. split; [vm_compute; reflexivity|].
  split; [reflexivity|]. split; [reflexivity|].
  apply (step_flags (engine := scripted) 2 near_limit eq_refl eq_refl).
  vm_compute. lia.
Defined.

(** The pickup tick earns 7 and no exploration bonus although room 5 is
    new; the walk back to room 1 earns the exploration bonus again. *)
Example pickup_then_revisit :
  visited_rooms pickup = Some ({[1]} ∪ ∅) /\
  tick false pickup = Ok ((-0.01 + 7)%float, false) (advance pickup) /\
  visited_rooms (advance pickup) = Some ({[5]} ∪ {[5]}) /\
  curr_room (play_level_2 (lib (advance pickup))) = 1 /\
  tick false (advance pickup) =
    Ok ((-0.01 + 4)%float, false) (advance (advance pickup)).
Proof.
  split; [reflexivity|].
  split; [rewrite (tick_ready false pickup eq_refl); reflexivity|].
  split; [reflexivity|]. split; [reflexivity|].
  rewrite (tick_ready false (advance pickup) eq_refl). reflexivity.
Qed.

Lemma sword_pickup_reseeds_rooms_witness :
  ready pickup = true /\
  got_sword pickup = Some 0 /\
  have_sword (play_level_2 (lib pickup)) = 1 /\
  exists fr t' w',
    tick false pickup = Ok (fr, t') w' /\
    fr = fold_left PrimFloat.add
           [health_loss pickup (play_level_2 (lib pickup));
            health_gain pickup (play_level_2 (lib pickup));
            death (play_level_2 (lib pickup));
            level_advance (play_level_2 (lib pickup));
            7%float;
            0%float;
            boss_combat pickup (play_level_2 (lib pickup))]
           (-0.01)%float /\
    got_sword w' = Some (have_sword (play_level_2 (lib pickup))) /\
    visited_rooms w' = Some {[curr_room (play_level_2 (lib pickup))]} /\
    (have_sword (play_level_2 (lib w')) <=
       have_sword (play_level_2 (lib pickup)) ->
     curr_room (play_level_2 (lib w')) <>
       curr_room (play_level_2 (lib pickup)) ->
     exists fr2 t2' w2,
       tick false w' = Ok (fr2, t2') w2 /\
       fr2 = fold_left PrimFloat.add
               [health_loss w' (play_level_2 (lib w'));
                health_gain w' (play_level_2 (lib w'));
                death (play_level_2 (lib w'));
                level_advance (play_level_2 (lib w'));
                0%float;
                4%float;
                boss_combat w' (play_level_2 (lib w'))]
               (-0.01)%float).
Proof.
  split; [reflexivity|]. split; [reflexivity|]. split; [reflexivity|].
  apply (sword_pickup_reseeds_rooms (engine := scripted) false false
           pickup 0 eq_refl eq_refl).
  vm_compute. reflexivity.
Defined.

(** The guard's hit points go from 5 to 0 while the kid stays in room 1:
    the killing blow earns 3. *)
Example killing_blow :
  guardhp_prev duel = 5 /\
  prev_room_id duel = Some 1 /\
  curr_room (play_level_2 (lib duel)) = 1 /\
  guardhp_curr (play_level_2 (lib duel)) = 0 /\
  tick false duel = Ok ((-0.01 + 3)%float, false) (advance duel).
Proof.
  split; [reflexivity|]. split; [reflexivity|]. split; [reflexivity|].
  split; [reflexivity|].
  rewrite (tick_ready false duel eq_refl). reflexivity.
Qed.

Lemma boss_combat_bonus_witness :
  ready duel = true /\
  exists b w',
    tick false duel =
      Ok (fold_left PrimFloat.add
            [health_loss duel (play_level_2 (lib duel));
             health_gain duel (play_level_2 (lib duel));
             death (play_level_2 (lib duel));
             level_advance (play_level_2 (lib duel));
             sword_bonus duel (play_level_2 (lib duel));
             new_room duel (play_level_2 (lib duel));
             b]
            (-0.01)%float,
          false || ends_episode (play_level_2 (lib duel)))
         w' /\
    (prev_room_id duel = Some (curr_room (play_level_2 (lib duel))) /\
     guardhp_curr (play_level_2 (lib duel)) < guardhp_prev duel ->
     (0 < guardhp_curr (play_level_2 (lib duel)) -> b = 2%float) /\
     (guardhp_curr (play_level_2 (lib duel)) <= 0 -> 0 < guardhp_prev duel ->
      b = 3%float) /\
     (guardhp_curr (play_level_2 (lib duel)) <= 0 -> guardhp_prev duel <= 0 ->
      b = 0%float)) /\
    (~ (prev_room_id duel = Some (curr_room (play_level_2 (lib duel))) /\
        guardhp_curr (play_level_2 (lib duel)) < guardhp_prev duel) ->
     b = 0%float).
Proof.
  split; [reflexivity|].
  exact (boss_combat_bonus (engine := scripted) false duel eq_refl).
Defined.

Lemma quiet_tick_costs_base_witness :
  prev_hp quiet = Some 3 /\
  prev_room_id quiet = Some 1 /\
  visited_rooms quiet = Some ({[1]} ∪ ∅) /\
  got_sword quiet = Some 0 /\
  exists w', tick false quiet = Ok ((-0.01)%float, false) w'.
Proof.
  split; [reflexivity|]. split; [reflexivity|]. split; [reflexivity|].
  split; [reflexivity|].
  apply (quiet_tick_costs_base (engine := scripted) false quiet 0
                               ({[1]} ∪ ∅));
    first [reflexivity | apply in_reseeded | vm_compute; discriminate].
Defined.

Lemma total_reward_spans_episodes_witness :
  value_of (session two_episodes (__init__ (loaded [1; 1; 0; 0; 1; 0]))) =
    Some [(0 + (-0.01 - 1 - 10))%float;
          (0 + -0.01 + -0.01 + -0.01 + -0.01)%float] /\
  total_reward after_two_episodes =
    (0 + (0 + (-0.01 - 1 - 10))
       + (0 + -0.01 + -0.01 + -0.01 + -0.01))%float /\
  episode_return after_two_episodes = Some 0%float.
Proof.
  assert (Hs : value_of (session two_episodes
                           (__init__ (loaded [1; 1; 0; 0; 1; 0]))) =
               Some [(0 + (-0.01 - 1 - 10))%float;
                     (0 + -0.01 + -0.01 + -0.01 + -0.01)%float])
    by (vm_compute; reflexivity).
  split; [exact Hs|].
  destruct (total_reward_spans_episodes (engine := scripted)
              (imaging := blank_image) two_episodes
              (loaded [1; 1; 0; 0; 1; 0]) _ Hs)
    as (_ & Ht & _).
  split; [exact Ht | vm_compute; reflexivity].
Defined.

Lemma step_count_counts_ticks_witness :
  ready fatal = true /\
  step_count (world_of (step 1 fatal)) = 1 /\
  exists k,
    (1 <= k <= 4)%nat /\
    step_count (world_of (step 1 fatal)) = step_count fatal + Z.of_nat k /\
    lib (world_of (step 1 fatal)) =
      Nat.iter k play_level_2 (set_rl_action (c_int 1) (lib fatal)) /\
    (forall i, (1 <= i < k)%nat ->
       ends_episode
         (Nat.iter i play_level_2 (set_rl_action (c_int 1) (lib fatal)))
       = false) /\
    ((k < 4)%nat ->
     ends_episode
       (Nat.iter k play_level_2 (set_rl_action (c_int 1) (lib fatal)))
     = true).
Proof.
  split; [reflexivity|]. split; [reflexivity|].
  exact (step_count_counts_ticks (engine := scripted) 1 fatal eq_refl).
Defined.

(** A [reset] right after the episode that ended in death: the scripted
    [init_game] leaves [rl_kid_dead] at 1. *)
Lemma reset_reports_alive_witness :
  rl_kid_dead (lib after_death) = 1 /\
  rl_kid_dead (init_game 1 (lib after_death)) = 1 /\
  hitp_max (init_game 1 (lib after_death)) = 3 /\
  exists o hp w',
    reset after_death = Ok (o, hp) w' /\
    nth_error (state o) 3 = Some 1%float /\
    lib w' = set_rl_kid_dead 0 (init_game 1 (lib after_death)) /\
    rl_kid_dead (lib w') = 0.
Proof.
  split; [reflexivity|]. split; [reflexivity|]. split; [reflexivity|].
  apply (reset_reports_alive (engine := scripted) after_death).
  vm_compute. lia.
Defined.

(** ** More behaviour on concrete episodes *)

Lemma step_before_reset_witness :
  got_sword (__init__ (loaded [])) = None /\
  exists w',
    step 2 (__init__ (loaded [])) = Raise (AttributeError "got_sword") w' /\
    lib w' = play_level_2 (set_rl_action (c_int 2)
                             (lib (__init__ (loaded [])))) /\
    step_count w' = step_count (__init__ (loaded [])) + 1 /\
    total_reward w' = total_reward (__init__ (loaded [])) /\
    prev_hp w' = prev_hp (__init__ (loaded [])).
Proof.
  split; [reflexivity|].
  exact (step_before_reset (engine := scripted) (imaging := blank_image)
           2 (__init__ (loaded [])) eq_refl).
Defined.

(** The level counter shows 2 on the first tick: the episode ends with the
    level bonus. *)
Lemma level_advance_exits_loop_witness :
  ready promoted = true /\
  current_level (play_level_2 (lib promoted)) = 2 /\
  exists fr w',
    tick false promoted = Ok (fr, true) w' /\
    fr = (-0.01 + 10)%float /\
    frame_skip 4 0%float false promoted = Ok ((0 + fr)%float, true) w' /\
    step_count w' = 1.
Proof.
  split; [reflexivity|]. split; [reflexivity|].
  destruct (level_advance_exits_loop (engine := scripted) 3 0%float false
              promoted eq_refl)
    as (fr & w' & Ht & Hfr & Hl & _ & Hc); [vm_compute; reflexivity|].
  exists fr, w'. repeat split; [exact Ht | | exact Hl | exact Hc].
  rewrite Hfr. reflexivity.
Defined.

(** The hit points drop from 3 to 0. *)
Lemma health_change_component_witness :
  ready fatal = true /\
  prev_hp fatal = Some 3 /\
  hitp_curr (play_level_2 (lib fatal)) = 0 /\
  exists h w',
    tick false fatal =
      Ok (fold_left PrimFloat.add
            [h; (-10)%float; 0%float; 0%float; 0%float; 0%float]
            (-0.01)%float, true) w' /\
    h = (-1)%float /\
    prev_hp w' = Some 0.
Proof.
  split; [reflexivity|]. split; [reflexivity|]. split; [reflexivity|].
  destruct (health_change_component (engine := scripted) false fatal 3
              eq_refl eq_refl)
    as (h & w' & Ht & Hdrop & _ & _ & Hp).
  exists h, w'. split; [exact Ht|]. split; [|exact Hp].
  apply Hdrop. vm_compute. reflexivity.
Defined.

(** The kid walks from room 1 into room 4, not visited so far. *)
Lemma exploration_component_witness :
  prev_room_id explorer = Some 1 /\
  got_sword explorer = Some 0 /\
  visited_rooms explorer = Some ({[1]} ∪ ∅) /\
  curr_room (play_level_2 (lib explorer)) = 4 /\
  exists x v' w',
    tick false explorer =
      Ok (fold_left PrimFloat.add
            [0%float; 0%float; 0%float; 0%float; 0%float; x; 0%float]
            (-0.01)%float, false) w' /\
    x = 4%float /\
    visited_rooms w' = Some v' /\
    4 ∈ v' /\ 1 ∈ v'.
Proof.
  split; [reflexivity|]. split; [reflexivity|]. split; [reflexivity|].
  split; [reflexivity|].
  destruct (exploration_component (engine := scripted) false explorer 0
              ({[1]} ∪ ∅) ltac:(discriminate) eq_refl eq_refl)
    as (x & v' & w' & Ht & Hx & _ & Hv & Hin & Hsub).
  exists x, v', w'. split; [exact Ht|].
  split.
  { apply Hx. split; [vm_compute; discriminate|].
    intros Hin1. apply elem_of_union in Hin1 as [Hin1 | Hin1].
    - apply elem_of_singleton in Hin1. vm_compute in Hin1. discriminate.
    - exact (not_elem_of_empty _ Hin1). }
  split; [exact Hv|]. split; [exact Hin|].
  apply Hsub; [vm_compute; discriminate | apply in_reseeded].
Defined.

(** The sword is picked up once; the next tick, with the sword still in
    hand, pays nothing for it. *)
Lemma sword_bonus_once_witness :
  ready pickup = true /\
  got_sword pickup = Some 0 /\
  exists fr t' w',
    tick false pickup = Ok (fr, t') w' /\
    got_sword w' = Some 1 /\
    (have_sword (play_level_2 (lib w')) <= 1 ->
     exists t2' w2,
       tick false w' =
         Ok (fold_left PrimFloat.add
               [health_loss w' (play_level_2 (lib w'));
                health_gain w' (play_level_2 (lib w'));
                death (play_level_2 (lib w'));
                level_advance (play_level_2 (lib w'));
                0%float;
                new_room w' (play_level_2 (lib w'));
                boss_combat w' (play_level_2 (lib w'))]
               (-0.01)%float, t2') w2 /\
       got_sword w2 = got_sword w').
Proof.
  split; [reflexivity|]. split; [reflexivity|].
  exact (sword_bonus_once (engine := scripted) false false pickup 0
           eq_refl eq_refl).
Defined.

(** The fatal tick reaches the lower bound. *)
Lemma tick_reward_bounds_witness :
  ready fatal = true /\
  tick false fatal = Ok ((-0.01 - 1 - 10)%float, true) (advance fatal) /\
  exists fr t' w',
    tick false fatal = Ok (fr, t') w' /\
    ((-0.01 - 1 - 10 <=? fr) = true /\
     (fr <=? -0.01 + 1 + 10 + 7 + 3) = true)%float.
Proof.
  split; [reflexivity|].
  split; [rewrite (tick_ready false fatal eq_refl); reflexivity|].
  exact (tick_reward_bounds (engine := scripted) false fatal eq_refl).
Defined.

Lemma step_keeps_synced_witness :
  ready quiet = true /\
  ready (world_of (step 3 quiet)) = true /\
  synced (world_of (step 3 quiet)) /\
  exists g,
    got_sword (world_of (step 3 quiet)) = Some g /\
    have_sword (lib (world_of (step 3 quiet))) <= g.
Proof.
  split; [reflexivity|].
  exact (step_keeps_synced (engine := scripted) 3 quiet eq_refl).
Defined.

(** The engine shows 0 of 0 hit points: four ticks are counted and paid
    into [total_reward], and the call raises. *)
Lemma step_fails_after_banking_witness :
  ready maimed = true /\
  hitp_max (lib (world_of (step 2 maimed))) = 0 /\
  step_count (world_of (step 2 maimed)) = 4 /\
  total_reward (world_of (step 2 maimed)) =
    (0 + (0 + (-0.01 - 1) + -0.01 + -0.01 + -0.01))%float /\
  exists w' k,
    step 2 maimed = Raise ZeroDivisionError w' /\
    (1 <= k <= 4)%nat /\
    step_count w' = step_count maimed + Z.of_nat k /\
    total_reward w' =
      (total_reward maimed +
       fold_left PrimFloat.add
         (rewards_of k (set_lib (set_rl_action (c_int 2) (lib maimed))
                                maimed))
         0)%float.
Proof.
  split; [reflexivity|]. split; [reflexivity|]. split; [reflexivity|].
  split; [vm_compute; reflexivity|].
  exact (step_fails_after_banking (engine := scripted) 2 maimed
           eq_refl eq_refl).
Defined.

(** The limit is reached by one step and passed by the next. *)
Lemma truncation_persists_witness :
  option_map truncated (value_of (step 2 near_limit)) = Some true /\
  option_map truncated
    (value_of (step 0 (world_of (step 2 near_limit)))) = Some true /\
  step_count near_limit = 1999996 /\
  step_count (world_of (step 2 near_limit)) = 2000000 /\
  step_count (world_of (step 0 (world_of (step 2 near_limit)))) = 2000004.
Proof.
  assert (H1 : exists r, value_of (step 2 near_limit) = Some r /\
                         truncated r = true)
    by (vm_compute; eexists; split; reflexivity).
  assert (H2 : exists r, value_of (step 0 (world_of (step 2 near_limit)))
                         = Some r)
    by (vm_compute; eexists; reflexivity).
  destruct H1 as (r & Hv & Ht). destruct H2 as (r2 & Hv2).
  destruct (truncation_persists (engine := scripted) 2 0 near_limit _ _ r r2
              (ok_of_value _ _ Hv) Ht (ok_of_value _ _ Hv2))
    as (Ht2 & _ & _).
  rewrite Hv, Hv2. cbn [option_map]. rewrite Ht, Ht2.
  repeat split; vm_compute; reflexivity.
Defined.

Lemma step_result_matches_adapter_witness :
  option_map (fun r => info_step (info r)) (value_of (step 1 quiet))
    = Some 4 /\
  step_count (world_of (step 1 quiet)) = 4 /\
  exists r,
    value_of (step 1 quiet) = Some r /\
    info_hp (info r) = hitp_curr (lib (world_of (step 1 quiet))) /\
    info_step (info r) = step_count (world_of (step 1 quiet)) /\
    info_total_reward (info r) = total_reward (world_of (step 1 quiet)) /\
    got_sword (world_of (step 1 quiet)) = Some (info_has_sword (info r)) /\
    state (obs r) = features (lib (world_of (step 1 quiet))) /\
    truncated r =
      (max_steps (world_of (step 1 quiet)) <=?
       step_count (world_of (step 1 quiet))) /\
    terminated r = ends_episode (lib (world_of (step 1 quiet))).
Proof.
  assert (H1 : exists r, value_of (step 1 quiet) = Some r)
    by (vm_compute; eexists; reflexivity).
  destruct H1 as (r & Hv).
  destruct (step_result_matches_adapter (engine := scripted) 1 quiet _ r
              (ok_of_value _ _ Hv))
    as (Hhp & Hst & Htot & Hgot & Hfeat & _ & _ & Htr & Hterm).
  split; [rewrite Hv; cbn [option_map]; rewrite Hst; reflexivity|].
  split; [reflexivity|].
  exists r. repeat split; assumption.
Defined.

(** After the fatal step, the adapter and a copy with other counters and
    trackers reset alike. *)
Lemma reset_forgets_episode_witness :
  step_count after_death = 1 /\ step_count rewound = 7 /\
  prev_hp after_death = Some 0 /\ prev_hp rewound = None /\
  reset after_death = reset rewound.
Proof.
  split; [vm_compute; reflexivity|]. split; [vm_compute; reflexivity|].
  split; [vm_compute; reflexivity|]. split; [vm_compute; reflexivity|].
  apply (reset_forgets_episode (engine := scripted) after_death rewound);
    unfold rewound; generalize after_death; intros []; reflexivity.
Defined.

Lemma observation_in_box_witness :
  hitp_curr (lib quiet) = 3 /\ hitp_max (lib quiet) = 3 /\
  current_level (lib quiet) = 1 /\
  option_map state (value_of (_get_obs quiet)) =
    Some [1%float; np_float32 (3 / 10)%float; np_float32 (1 / 15)%float;
          1%float] /\
  exists o,
    value_of (_get_obs quiet) = Some o /\
    length (state o) = 4%nat /\ forallb in_unit (state o) = true.
Proof.
  split; [reflexivity|]. split; [reflexivity|]. split; [reflexivity|].
  split; [vm_compute; reflexivity|].
  assert (H1 : exists o, value_of (_get_obs quiet) = Some o)
    by (vm_compute; eexists; reflexivity).
  destruct H1 as (o & Hv). exists o. split; [exact Hv|].
  apply (observation_in_box (engine := scripted) quiet _ o
           (ok_of_value _ _ Hv)); vm_compute; intuition discriminate.
Defined.

(** The features are not clamped: 20 of 20 hit points on level 30 give
    2.0 for both the second and the third feature. *)
Example features_not_clamped :
  features (mkSim 1 0 1 0 30 20 20 0 1 0 []) =
    [1%float; 2%float; 2%float; 1%float] /\
  forallb in_unit (features (mkSim 1 0 1 0 30 20 20 0 1 0 [])) = false.
Proof. split; reflexivity. Qed.

(** The constructor's adapter raises on [step] and not on [reset]. *)
Example reset_then_step_returns :
  attribute_error (step 0 (__init__ (loaded []))) = true /\
  attribute_error (reset (__init__ (loaded []))) = false /\
  attribute_error (step 0 quiet) = false.
Proof. repeat split; vm_compute; reflexivity. Qed.
